(** * CountFrequencyEncoder

    A shallow embedding of [feature_engine/encoding/count_frequency.py]:
    the constructor and [fit] of [CountFrequencyEncoder], the part of
    pandas they call ([Series.value_counts], [Series.to_dict]), and the
    collaborators of the encoder that live in other modules of the package.

    Python objects are records, the mutable [self] is threaded through a
    state-and-exception monad, and [encoder_dict_] is a finite map from
    variable names to per-category mappings that keep insertion order. *)

From Stdlib Require Import ZArith QArith Qabs Lia.
From stdpp Require Import base list strings gmap sorting.

Set Default Proof Using "Type".

(** ** Values held by a frame *)

(** A hashable Python scalar: a label or a number.  Numbers are written in
    lowest terms, so that two scalars are the same Python value exactly when
    they are equal; every number the encoder computes is an integer or is
    reduced by [Qred]. *)
Inductive scalar :=
  | Str (s : string)
  | Num (q : Q).

#[global] Instance Q_eq_dec : EqDecision Q.
Proof. solve_decision. Defined.

#[global] Instance scalar_eq_dec : EqDecision scalar.
Proof. solve_decision. Defined.

(** A cell of a frame; [None] is pandas' missing value (NaN). *)
Abbreviation cell := (option scalar).

(** A learned statistic: an [int64] count or a [float64] frequency, as the
    rational it represents; [None] is the float NaN. *)
Abbreviation number := (option Q).

(** ** Exceptions

    The encoder's error taxonomy.  [ConfigError] is the [ValueError] that
    the constructor raises; [KeyError] and [AttributeError] are Python's. *)
Inductive exn :=
  | ConfigError (msg : string)
  | ConsistencyError
  | SchemaError
  | UnseenCategoryError (vars : list string)
  | StateError
  | KeyError (key : scalar)
  | AttributeError (name : string).

#[global] Instance exn_eq_dec : EqDecision exn.
Proof. solve_decision. Defined.

(** ** pandas: Series and DataFrame *)

(** The dtype of a column: one without declared categories ([object],
    [int64], [float64]), or [category] with its declared categories. *)
Inductive Dtype :=
  | plain
  | category (categories : list scalar).

Record Series := { dtype : Dtype; data : list cell }.

(** Column names with their columns, in column order. *)
Abbreviation DataFrame := (list (string * Series)).

(** The cells a Series holds.  A categorical Series holds only its declared
    categories: pandas turns any other label into NaN when the Series is
    built. *)
Definition values (s : Series) : list cell :=
  match dtype s with
  | plain => data s
  | category cats =>
      (λ c : cell, c ≫= λ v, if decide (v ∈ cats) then Some v else None)
        <$> data s
  end.

(** [Series.dropna]: the non-missing cells. *)
Definition dropna (l : list cell) : list scalar := omap id l.

(** Rows of [l] bearing the category [k]. *)
Definition count_of (k : scalar) (l : list scalar) : nat :=
  length (filter (k =.) l).

(** [pandas.unique]: the distinct labels, each at its first appearance. *)
Fixpoint unique (l : list scalar) : list scalar :=
  match l with
  | [] => []
  | x :: l' => x :: filter (λ y, y ≠ x) (unique l')
  end.

(** The index of [value_counts]: the distinct labels in order of first
    appearance, or every declared category of a categorical Series, observed
    or not, in the declared order. *)
Definition index_of (s : Series) : list scalar :=
  match dtype s with
  | plain => unique (dropna (values s))
  | category cats => unique cats
  end.

Definition counts (s : Series) : list (scalar * nat) :=
  (λ k, (k, count_of k (dropna (values s)))) <$> index_of s.

(** [value_counts] sorts by count, largest first, with a stable sort: an
    entry goes in front of the first one whose count is not larger, so that
    entries with equal counts keep the order of the index. *)
Definition by_count_desc : relation (scalar * nat) := λ a b, b.2 ≤ a.2.

Fixpoint insert_by_count (x : scalar * nat) (l : list (scalar * nat))
  : list (scalar * nat) :=
  match l with
  | [] => [x]
  | y :: l' =>
      if decide (y.2 ≤ x.2) then x :: y :: l' else y :: insert_by_count x l'
  end.

Definition sort_by_count (l : list (scalar * nat)) : list (scalar * nat) :=
  foldr insert_by_count [] l.

(** ** float64

    A [float64] value is the rational it represents.  Division rounds the
    exact quotient to the nearest value with a 53-bit significand, ties to
    even.  The exponent range is not modelled: a quotient of two counts lies
    well within it, and counts below [2 ^ 53] convert to [float64] exactly. *)

(** [a / b] rounded to the nearest integer, ties to even, for [0 < b]. *)
Definition round_half_even (a b : Z) : Z :=
  let q := (a / b)%Z in
  let r := (a mod b)%Z in
  if (2 * r <? b)%Z then q
  else if (b <? 2 * r)%Z then (q + 1)%Z
  else if Z.even q then q else (q + 1)%Z.

(** [n / d] times [2 ^ s], as a fraction of integers. *)
Definition scaled (n : Z) (d : positive) (s : Z) : Z * Z :=
  ((n * 2 ^ Z.max s 0)%Z, (Z.pos d * 2 ^ Z.max (- s) 0)%Z).

(** The [s] for which [n / d] times [2 ^ s] lies in [2 ^ 52, 2 ^ 53), for
    [0 < n]. *)
Definition scale_of (n : Z) (d : positive) : Z :=
  let s0 := (52 + Z.log2 (Z.pos d) - Z.log2 n)%Z in
  if (2 ^ 52 * (scaled n d s0).2 <=? (scaled n d s0).1)%Z
  then s0 else (s0 + 1)%Z.

Definition float64_pos (n : Z) (d : positive) : Q :=
  let s := scale_of n d in
  let m := round_half_even (scaled n d s).1 (scaled n d s).2 in
  Qred ((m * 2 ^ Z.max (- s) 0)%Z # Z.to_pos (2 ^ Z.max s 0)).

(** The [float64] nearest to [x]. *)
Definition float64 (x : Q) : Q :=
  match Qnum x with
  | Z0 => 0%Q
  | Zpos _ => float64_pos (Qnum x) (Qden x)
  | Zneg p => (- float64_pos (Zpos p) (Qden x))%Q
  end.

(** The exact quotient of two counts, for [0 < total]. *)
Definition quotient (c total : nat) : Q := Z.of_nat c # Pos.of_nat total.

(** [counts / counts.sum()] for one count: the [float64] quotient; [0 / 0] is
    NaN. *)
Definition divide (c total : nat) : number :=
  match total with
  | O => None
  | S _ => Some (float64 (quotient c total))
  end.

(** [Series.value_counts(normalize=...)], with [dropna=True], [sort=True].
    Equal counts stay in index order.  The cells are hashable scalars by
    their type, so the [TypeError] that pandas raises on an unhashable cell
    (a list, say) has no place here. *)
Definition value_counts (normalize : bool) (s : Series)
  : list (scalar * number) :=
  let cs := sort_by_count (counts s) in
  let total := sum_list (cs.*2) in
  if normalize
  then (λ kc : scalar * nat, (kc.1, divide kc.2 total)) <$> cs
  else (λ kc : scalar * nat, (kc.1, Some (inject_Z (Z.of_nat kc.2)))) <$> cs.

(** [X[var]]: the column named [var]. *)
Fixpoint column (X : DataFrame) (var : string) : option Series :=
  match X with
  | [] => None
  | (name, s) :: X' => if decide (name = var) then Some s else column X' var
  end.

Definition columns (X : DataFrame) : list string := X.*1.

(** ** Python: dict and defaultdict *)

(** A [dict] ([default_factory = None]) or a [collections.defaultdict]
    whose factory returns the given number; items in insertion order. *)
Record Mapping := {
  items : list (scalar * number);
  default_factory : option number
}.

Definition dict : Mapping := {| items := []; default_factory := None |}.

Definition defaultdict (d : number) : Mapping :=
  {| items := []; default_factory := Some d |}.

Fixpoint assoc {K V} `{EqDecision K} (k : K) (l : list (K * V)) : option V :=
  match l with
  | [] => None
  | (k', v) :: l' => if decide (k' = k) then Some v else assoc k l'
  end.

Definition keys (m : Mapping) : list scalar := (items m).*1.

(** [m[k]].  A miss on a defaultdict calls the factory, stores the result
    under [k] and returns it; a miss on a dict raises KeyError. *)
Definition getitem (m : Mapping) (k : scalar) : Mapping * (exn + number) :=
  match assoc k (items m) with
  | Some v => (m, inr v)
  | None =>
      match default_factory m with
      | Some d =>
          ({| items := items m ++ [(k, d)];
              default_factory := default_factory m |}, inr d)
      | None => (m, inl (KeyError k))
      end
  end.

(** [Series.to_dict(into)] for the result of [value_counts]: a new mapping of
    the kind of [into] (for a defaultdict, with the same factory) holding the
    pairs in order.  The index of [value_counts] has no duplicates, so the
    constructor keeps every pair. *)
Definition to_dict (pairs : list (scalar * number)) (into : Mapping)
  : Mapping :=
  {| items := pairs; default_factory := default_factory into |}.

(** The sum of statistics as rationals, without rounding; a NaN makes it
    NaN. *)
Definition add_number (a b : number) : number :=
  match a, b with
  | Some x, Some y => Some (x + y)%Q
  | _, _ => None
  end.

Definition sum_numbers (l : list number) : number :=
  foldr add_number (Some 0%Q) l.

(** ** The encoder object *)

Record Encoder := {
  encoding_method : string;
  variables : option (list string);
  ignore_format : bool;
  errors : string;
  (* attributes assigned by fit *)
  variables_ : option (list string);
  feature_names_in_ : option (list string);
  n_features_in_ : option nat;
  encoder_dict_ : option (gmap string Mapping)
}.

Definition set_variables_ (v : list string) (self : Encoder) : Encoder :=
  {| encoding_method := encoding_method self; variables := variables self;
     ignore_format := ignore_format self; errors := errors self;
     variables_ := Some v;
     feature_names_in_ := feature_names_in_ self;
     n_features_in_ := n_features_in_ self;
     encoder_dict_ := encoder_dict_ self |}.

Definition set_feature_names_in_ (names : list string) (n : nat)
    (self : Encoder) : Encoder :=
  {| encoding_method := encoding_method self; variables := variables self;
     ignore_format := ignore_format self; errors := errors self;
     variables_ := variables_ self;
     feature_names_in_ := Some names;
     n_features_in_ := Some n;
     encoder_dict_ := encoder_dict_ self |}.

Definition set_encoder_dict_ (d : gmap string Mapping) (self : Encoder)
  : Encoder :=
  {| encoding_method := encoding_method self; variables := variables self;
     ignore_format := ignore_format self; errors := errors self;
     variables_ := variables_ self;
     feature_names_in_ := feature_names_in_ self;
     n_features_in_ := n_features_in_ self;
     encoder_dict_ := Some d |}.

(** [self.encoding_method = method; self.errors = policy] *)
Definition set_config (method policy : string) (self : Encoder) : Encoder :=
  {| encoding_method := method; variables := variables self;
     ignore_format := ignore_format self; errors := policy;
     variables_ := variables_ self;
     feature_names_in_ := feature_names_in_ self;
     n_features_in_ := n_features_in_ self;
     encoder_dict_ := encoder_dict_ self |}.

(** ** Methods: state of [self] and exceptions

    A method maps the object before the call to the object after it and
    either the raised exception or the returned value.  Assignments made
    before an exception is raised stay on the object, as in Python. *)
Definition M (A : Type) : Type := Encoder → Encoder * (exn + A).

Definition ret {A} (a : A) : M A := λ self, (self, inr a).

Definition raise {A} (e : exn) : M A := λ self, (self, inl e).

Definition bind {A B} (c : M A) (k : A → M B) : M B :=
  λ self,
    match c self with
    | (self', inl e) => (self', inl e)
    | (self', inr a) => k a self'
    end.

Notation "x <- c ;; k" := (bind c (λ x, k))
  (at level 100, c at next level, right associativity).
Notation "c ;; k" := (bind c (λ _, k))
  (at level 100, right associativity).

(** The outcome of a call that does not touch [self]. *)
Definition lift {A} (r : exn + A) : M A := λ self, (self, r).

(** [self.name] for a configuration attribute. *)
Definition gets {A} (f : Encoder → A) : M A := λ self, (self, inr (f self)).

(** [self.name] for an attribute that exists only once assigned. *)
Definition getattr {A} (f : Encoder → option A) (name : string) : M A :=
  λ self,
    match f self with
    | Some a => (self, inr a)
    | None => (self, inl (AttributeError name))
    end.

(** [self.name = ...] *)
Definition modify (f : Encoder → Encoder) : M unit :=
  λ self, (f self, inr tt).

(** [for x in l: body] *)
Fixpoint for_ {A} (l : list A) (body : A → M unit) : M unit :=
  match l with
  | [] => ret tt
  | x :: l' => body x ;; for_ l' body
  end.

(** ** Construction *)

(** Modelled from the spec: [check_parameter_errors] of
    [feature_engine.encoding._helper_functions], the parameter validator
    that rejects an [errors] value outside the accepted ones with a
    ConfigError. *)
Definition check_parameter_errors (errors : string) (accepted : list string)
  : exn + unit :=
  if decide (errors ∈ accepted) then inr tt
  else inl (ConfigError
         ("errors takes only values " +:+ String.concat ", " accepted
          +:+ ". Got " +:+ errors +:+ " instead.")).

(** An instance that holds [variables] and [ignore_format], and no fitted
    attribute. *)
Definition configured (variables : option (list string))
    (ignore_format : bool) : Encoder :=
  {| encoding_method := ""; variables := variables;
     ignore_format := ignore_format; errors := "";
     variables_ := None; feature_names_in_ := None;
     n_features_in_ := None; encoder_dict_ := None |}.

(** Modelled from the spec: [CategoricalInitMixin.__init__] of
    [feature_engine.encoding.base_encoder], which records [variables] and
    [ignore_format] in the configuration.  The spec is silent on what this
    constructor does with the two values before it records them, and its
    code is not part of this unit: that part is the collaborator
    [check_init], which raises, or returns the values to record. *)
Definition CategoricalInitMixin_init
    (check_init : option (list string) → bool
                  → exn + (option (list string) * bool))
    (variables : option (list string)) (ignore_format : bool)
  : exn + Encoder :=
  match check_init variables ignore_format with
  | inl e => inl e
  | inr (variables, ignore_format) => inr (configured variables ignore_format)
  end.

(** [CountFrequencyEncoder.__init__]: the new instance, or the exception
    that ends the construction. *)
Definition __init__
    (check_init : option (list string) → bool
                  → exn + (option (list string) * bool))
    (encoding_method : string)
    (variables : option (list string)) (ignore_format : bool)
    (errors : string) : exn + Encoder :=
  if negb (bool_decide (encoding_method ∈ ["count"; "frequency"]))
  then inl (ConfigError
         ("encoding_method takes only values 'count' and 'frequency'. Got "
          +:+ encoding_method +:+ " instead."))
  else
    match check_parameter_errors errors ["ignore"; "raise"; "encode"] with
    | inl e => inl e
    | inr _ =>
        match CategoricalInitMixin_init check_init variables ignore_format with
        | inl e => inl e
        | inr self => inr (set_config encoding_method errors self)
        end
    end.

(** ** Fitting *)

Section CountFrequencyEncoder.

(** Collaborators from other modules of the package, whose code is not
    part of this unit: [check_X] of [feature_engine.dataframe_checks]
    validates the input and returns the frame to work on (a copy), and
    [select] is the variable selector behind [CategoricalMethodsMixin._fit]. *)
Variable check_X : DataFrame → exn + DataFrame.
Variable select : DataFrame → option (list string) → bool → exn + list string.

(** Modelled from the spec: [CategoricalMethodsMixin._fit] of
    [feature_engine.encoding.base_encoder], which resolves the variables to
    encode with the variable selector and records them in [variables_]. *)
Definition _fit (X : DataFrame) : M unit :=
  explicit <- gets variables;;
  override <- gets ignore_format;;
  vars <- lift (select X explicit override);;
  modify (set_variables_ vars).

(** Modelled from the spec: [_get_feature_names_in] of the same mixin,
    which records the names and the number of all columns of the training
    frame. *)
Definition _get_feature_names_in (X : DataFrame) : M unit :=
  modify (set_feature_names_in_ (columns X) (length (columns X))).

(** Modelled from the spec: the statistic is exactly 0. *)
Definition is_zero (n : number) : bool :=
  match n with
  | Some q => Qeq_bool q 0
  | None => false
  end.

(** Modelled from the spec: some statistic of the mapping is exactly 0. *)
Definition has_zero (m : Mapping) : bool :=
  existsb (λ kv : scalar * number, is_zero kv.2) (items m).

(** Modelled from the spec: [_check_encoding_dictionary] of the same mixin,
    the map consistency checker.  Under the policy ['encode'] it scans every
    learned statistic of every variable and raises ConsistencyError when one
    is exactly 0; under the other policies it does nothing. *)
Definition _check_encoding_dictionary : M unit :=
  policy <- gets errors;;
  if String.eqb policy "encode" then
    d <- getattr encoder_dict_ "encoder_dict_";;
    if existsb has_zero (map_to_list d).*2
    then raise ConsistencyError
    else ret tt
  else ret tt.

(** [X[var]], raising KeyError for a name that is not a column. *)
Definition getitem_column (X : DataFrame) (var : string) : M Series :=
  match column X var with
  | Some s => ret s
  | None => raise (KeyError (Str var))
  end.

(** [self.encoder_dict_[var] = m] *)
Definition setitem_encoder_dict_ (var : string) (m : Mapping) : M unit :=
  d <- getattr encoder_dict_ "encoder_dict_";;
  modify (set_encoder_dict_ (<[var := m]> d)).

(** The body of the loop of [fit] that learns the encoding maps. *)
Definition learn_encoding_map (X : DataFrame) (dct_init : Mapping)
    (var : string) : M unit :=
  method <- gets encoding_method;;
  if String.eqb method "count" then
    col <- getitem_column X var;;
    setitem_encoder_dict_ var (to_dict (value_counts false col) dct_init)
  else if String.eqb method "frequency" then
    col <- getitem_column X var;;
    setitem_encoder_dict_ var (to_dict (value_counts true col) dct_init)
  else ret tt.

(** [CountFrequencyEncoder.fit]; [y] is not used, and the value returned is
    [self]. *)
Definition fit (X : DataFrame) : M Encoder :=
  X <- lift (check_X X);;
  _fit X;;
  _get_feature_names_in X;;
  modify (set_encoder_dict_ ∅);;
  policy <- gets errors;;
  let dct_init :=
    if String.eqb policy "encode" then defaultdict (Some 0%Q) else dict in
  vars <- getattr variables_ "variables_";;
  for_ vars (learn_encoding_map X dct_init);;
  _check_encoding_dictionary;;
  gets id.

End CountFrequencyEncoder.

(** ** Transforming

    [transform] and [inverse_transform] are methods of
    [CategoricalMethodsMixin] in [feature_engine.encoding.base_encoder]. *)

(** Modelled from the spec: the Fitted State, what fit leaves on the encoder
    for transform and inverse_transform. *)
Record FittedState := {
  fitted_variables : list string;
  fitted_dict : gmap string Mapping;
  fitted_names : list string;
  fitted_n : nat
}.

(** Modelled from the spec: the Fitted State exists once fit has assigned
    its four attributes. *)
Definition fitted_state (self : Encoder) : option FittedState :=
  match variables_ self, encoder_dict_ self,
        feature_names_in_ self, n_features_in_ self with
  | Some vars, Some d, Some names, Some n =>
      Some {| fitted_variables := vars; fitted_dict := d;
              fitted_names := names; fitted_n := n |}
  | _, _, _, _ => None
  end.

(** Modelled from the spec: the lookup of transform in a per-variable
    mapping, the entries first, then the default of the mapping, else a
    miss. *)
Definition lookup_stat (m : Mapping) (k : scalar) : option number :=
  match assoc k (items m) with
  | Some v => Some v
  | None => default_factory m
  end.

(** Modelled from the spec: a missing cell stays missing, a category becomes
    its statistic, and a miss becomes a missing value. *)
Definition encode_cell (m : Mapping) (c : cell) : cell :=
  match c with
  | None => None
  | Some k =>
      match lookup_stat m k with
      | Some (Some q) => Some (Num q)
      | Some None | None => None
      end
  end.

(** Modelled from the spec: the encoded column is numeric. *)
Definition encode_column (m : Mapping) (s : Series) : Series :=
  {| dtype := plain; data := encode_cell m <$> values s |}.

(** Modelled from the spec: [f] applied to the column of every fitted
    variable; the other columns, the shape and the column order stay. *)
Definition map_fitted (f : Mapping → Series → Series)
    (fs : FittedState) (X : DataFrame) : DataFrame :=
  (λ col : string * Series,
     if decide (col.1 ∈ fitted_variables fs) then
       match fitted_dict fs !! col.1 with
       | Some m => (col.1, f m col.2)
       | None => col
       end
     else col) <$> X.

(** Modelled from the spec: a cell holds a category absent from the learned
    mapping. *)
Definition unseen (m : Mapping) (c : cell) : bool :=
  match c with
  | Some k => bool_decide (k ∉ keys m)
  | None => false
  end.

(** Modelled from the spec: the column of [var] holds an unseen category. *)
Definition has_unseen (fs : FittedState) (X : DataFrame) (var : string)
  : bool :=
  match fitted_dict fs !! var, column X var with
  | Some m, Some s => existsb (unseen m) (values s)
  | _, _ => false
  end.

(** Modelled from the spec: [transform] of [CategoricalMethodsMixin].  It
    needs the Fitted State and a frame with the columns recorded at fit; it
    replaces each cell of a fitted variable by the statistic of its category,
    a miss giving a missing value, or failing the whole call under the policy
    ['raise'] with the variables that hold unseen categories. *)
Definition transform (self : Encoder) (X : DataFrame) : exn + DataFrame :=
  match fitted_state self with
  | None => inl StateError
  | Some fs =>
      if bool_decide (columns X = fitted_names fs) then
        let offending :=
          filter (λ v, has_unseen fs X v) (fitted_variables fs) in
        if String.eqb (errors self) "raise"
           && negb (bool_decide (offending = []))
        then inl (UnseenCategoryError offending)
        else inr (map_fitted encode_column fs X)
      else inl SchemaError
  end.

(** Modelled from the spec: the reverse mapping of inverse_transform,
    statistic to category, built from the forward mapping in its iteration
    order. *)
Definition reverse (m : Mapping) : list (Q * scalar) :=
  omap (λ kv : scalar * number, (λ q, (q, kv.1)) <$> kv.2) (items m).

(** Modelled from the spec: a number with a key in the reverse mapping
    becomes the first category that has it as statistic; any other cell
    passes through. *)
Definition decode_cell (m : Mapping) (c : cell) : cell :=
  match c with
  | Some (Num q) =>
      match assoc q (reverse m) with
      | Some k => Some k
      | None => c
      end
  | _ => c
  end.

(** Modelled from the spec: the decoded column. *)
Definition decode_column (m : Mapping) (s : Series) : Series :=
  {| dtype := plain; data := decode_cell m <$> values s |}.

(** Modelled from the spec: [inverse_transform] of
    [CategoricalMethodsMixin], with the preconditions of [transform]. *)
Definition inverse_transform (self : Encoder) (X : DataFrame)
  : exn + DataFrame :=
  match fitted_state self with
  | None => inl StateError
  | Some fs =>
      if bool_decide (columns X = fitted_names fs)
      then inr (map_fitted decode_column fs X)
      else inl SchemaError
  end.

(** ** A functional reading of fit

    What the loop of [fit] computes, as a function of the dictionary built so
    far: the dictionary after the loop and whether [X[var]] failed. *)

(** The [normalize] argument that the encoding method selects. *)
Definition normalized (method : string) : option bool :=
  if String.eqb method "count" then Some false
  else if String.eqb method "frequency" then Some true
  else None.

Fixpoint learned (method : string) (dct_init : Mapping) (X : DataFrame)
    (vars : list string) (d : gmap string Mapping)
  : gmap string Mapping * (exn + unit) :=
  match vars with
  | [] => (d, inr tt)
  | var :: vars' =>
      match normalized method with
      | None => learned method dct_init X vars' d
      | Some n =>
          match column X var with
          | Some col =>
              learned method dct_init X vars'
                (<[var := to_dict (value_counts n col) dct_init]> d)
          | None => (d, inl (KeyError (Str var)))
          end
      end
  end.

(** The [dct_init] of [fit]. *)
Definition dct_init_of (policy : string) : Mapping :=
  if String.eqb policy "encode" then defaultdict (Some 0%Q) else dict.

(** [fit] as a function of its input: the object after the call and the
    outcome. *)
Definition fit_reading (check_X : DataFrame → exn + DataFrame)
    (select : DataFrame → option (list string) → bool → exn + list string)
    (X : DataFrame) (self : Encoder) : Encoder * (exn + Encoder) :=
  match check_X X with
  | inl e => (self, inl e)
  | inr X' =>
      match select X' (variables self) (ignore_format self) with
      | inl e => (self, inl e)
      | inr vars =>
          let self1 :=
            set_feature_names_in_ (columns X') (length (columns X'))
              (set_variables_ vars self) in
          let r := learned (encoding_method self) (dct_init_of (errors self))
                     X' vars ∅ in
          let self2 := set_encoder_dict_ r.1 self1 in
          match r.2 with
          | inl e => (self2, inl e)
          | inr _ =>
              if String.eqb (errors self) "encode"
                 && existsb has_zero (map_to_list r.1).*2
              then (self2, inl ConsistencyError)
              else (self2, inr self2)
          end
      end
  end.

(** ** Predicates on mappings *)

(** What [fit] learns for a column under ['count']: the categories of the
    column are keys, each key maps to the number of rows that bear it, and
    the statistics of the distinct keys add up to the number of non-missing
    rows. *)
Definition counts_learned (col : Series) (m : Mapping) : Prop :=
  NoDup (keys m)
  ∧ (∀ c, c ∈ dropna (values col) → c ∈ keys m)
  ∧ (∀ c n, assoc c (items m) = Some n →
        n = Some (inject_Z (Z.of_nat (count_of c (dropna (values col))))))
  ∧ ∃ q, sum_numbers (items m).*2 = Some q
         ∧ (q == inject_Z (Z.of_nat (length (dropna (values col)))))%Q.

(** What [fit] learns for a column under ['frequency']: each key maps to the
    [float64] quotient of its count and the number of non-missing rows,
    which is within one rounding of the exact quotient and between 0 and 1,
    and the statistics of the distinct keys add up to 1 within 1e-9. *)
Definition frequencies_learned (col : Series) (m : Mapping) : Prop :=
  NoDup (keys m)
  ∧ (∀ c, c ∈ dropna (values col) → c ∈ keys m)
  ∧ (∀ c n, assoc c (items m) = Some n →
        ∃ q, n = Some q
             ∧ q = float64 (quotient (count_of c (dropna (values col)))
                              (length (dropna (values col))))
             ∧ (Qabs (q - quotient (count_of c (dropna (values col)))
                            (length (dropna (values col))))
                <= (1 # 2 ^ 53)
                   * quotient (count_of c (dropna (values col)))
                       (length (dropna (values col))))%Q
             ∧ (0 <= q)%Q ∧ (q <= 1)%Q)
  ∧ ∃ q, sum_numbers (items m).*2 = Some q
         ∧ (Qabs (q - 1) <= 1 # 1000000000)%Q.

(** Some learned statistic of some variable is exactly 0. *)
Definition zero_statistic (d : gmap string Mapping) : Prop :=
  ∃ v m k q, d !! v = Some m ∧ (k, Some q) ∈ items m ∧ (q == 0)%Q.

(** No two categories of the mapping share a statistic. *)
Definition injective_mapping (m : Mapping) : Prop :=
  ∀ c1 c2 q, (c1, Some q) ∈ items m → (c2, Some q) ∈ items m → c1 = c2.

(** The cell is not a number that the reverse mapping has as key. *)
Definition no_reverse_key (m : Mapping) (c : cell) : Prop :=
  match c with
  | Some (Num q) => q ∉ (reverse m).*1
  | _ => True
  end.

(** Whether [k] is [x], as a number. *)
Definition indicator (x k : scalar) : nat := if decide (k = x) then 1 else 0.

(** ** Example data *)

Definition labels (l : list string) : Series :=
  {| dtype := plain; data := (λ s, Some (Str s)) <$> l |}.

Definition colour : Series :=
  labels ["blue"; "blue"; "blue"; "red"; "red";
          "green"; "green"; "green"; "green"; "green"].

Definition colours : DataFrame := [("colour", colour)].

Definition blue_yellow : DataFrame := [("colour", labels ["blue"; "yellow"])].

(** A categorical column that declares a category it never holds. *)
Definition size : Series :=
  {| dtype := category [Str "S"; Str "M"];
     data := [Some (Str "S"); Some (Str "S"); None] |}.

Definition sizes : DataFrame := [("size", size)].

(** Two categories with the same count. *)
Definition letters : DataFrame := [("letter", labels ["a"; "b"])].

(** A base-class constructor that records its arguments as they are, a
    validator that accepts every frame, and a selector that takes the
    explicit list, or else every column. *)
Definition accept_init (variables : option (list string))
    (ignore_format : bool) : exn + (option (list string) * bool) :=
  inr (variables, ignore_format).

Definition accept (X : DataFrame) : exn + DataFrame := inr X.

Definition explicit_or_all (X : DataFrame) (explicit : option (list string))
    (override : bool) : exn + list string :=
  inr (default (columns X) explicit).


(** A freshly constructed encoder with the default [variables] and
    [ignore_format]. *)
Definition new_encoder (method policy : string) : Encoder :=
  set_config method policy (configured None false).

(** The items learned for a variable, in order. *)
Definition learned_items (var : string) (self : Encoder)
  : option (list (scalar * number)) :=
  encoder_dict_ self ≫= λ d, items <$> d !! var.

(** A frame with the single column [colour] holding the given cells. *)
Definition colour_column (l : list cell) : DataFrame :=
  [("colour", {| dtype := plain; data := l |})].

(** fit on a new encoder. *)
Definition fit_new (check_X : DataFrame → exn + DataFrame)
    (select : DataFrame → option (list string) → bool → exn + list string)
    (X : DataFrame) (method policy : string) : Encoder * (exn + Encoder) :=
  fit check_X select X (new_encoder method policy).

(** The encoder left by fitting [X] with the accepting collaborators. *)
Definition fitted_on (X : DataFrame) (method policy : string) : Encoder :=
  (fit_new accept explicit_or_all X method policy).1.

(** The Fitted State after fitting [colours] under ['count']. *)
Definition colour_counts (default : option number) : Mapping :=
  {| items := [(Str "green", Some 5%Q); (Str "blue", Some 3%Q);
               (Str "red", Some 2%Q)];
     default_factory := default |}.

Definition colours_state (m : Mapping) : FittedState :=
  {| fitted_variables := ["colour"]; fitted_dict := {["colour" := m]};
     fitted_names := ["colour"]; fitted_n := 1 |}.

(** ** What a successful fit stored *)

(** A fit of [X] succeeded on [self] and stored [m] for the fitted variable
    [v], whose column in the validated frame is [col]. *)
Definition fit_learned (check_X : DataFrame → exn + DataFrame)
    (select : DataFrame → option (list string) → bool → exn + list string)
    (X : DataFrame) (self : Encoder) (v : string) (col : Series)
    (m : Mapping) : Prop :=
  ∃ X' self' r vars d,
    fit check_X select X self = (self', inr r)
    ∧ check_X X = inr X'
    ∧ variables_ self' = Some vars
    ∧ v ∈ vars
    ∧ column X' v = Some col
    ∧ encoder_dict_ self' = Some d
    ∧ d !! v = Some m.

(** The four configuration attributes agree. *)
Definition same_configuration (a b : Encoder) : Prop :=
  encoding_method a = encoding_method b
  ∧ errors a = errors b
  ∧ variables a = variables b
  ∧ ignore_format a = ignore_format b.


(** A column of one category. *)
Definition constant : Series := labels ["blue"; "blue"; "blue"].

Definition constants : DataFrame := [("colour", constant)].

(** The mappings that fit stores for [colour] under ['frequency'] and for
    [size] under ['count']. *)
Definition colour_frequencies (default : option number) : Mapping :=
  {| items := [(Str "green", Some (float64 (5 # 10)));
               (Str "blue", Some (float64 (3 # 10)));
               (Str "red", Some (float64 (2 # 10)))];
     default_factory := default |}.

Definition size_counts : Mapping :=
  {| items := [(Str "S", Some 2%Q); (Str "M", Some 0%Q)];
     default_factory := None |}.

(** The rows of [letters] in the other order, and what fit stores for each
    of the two. *)
Definition letters_reversed : DataFrame := [("letter", labels ["b"; "a"])].

Definition letter_counts (first second : string) : Mapping :=
  {| items := [(Str first, Some 1%Q); (Str second, Some 1%Q)];
     default_factory := None |}.

(** * Properties *)

(** ** float64 rounding *)

Lemma round_half_even_nearest a b :
  (0 < b)%Z →
  (- b <= 2 * (round_half_even a b * b - a) <= b)%Z.
Proof.
  intros Hb. unfold round_half_even.
  pose proof (Z.div_mod a b ltac:(lia)) as Hdm.
  pose proof (Z.mod_pos_bound a b Hb) as Hr.
  destruct (2 * (a mod b) <? b)%Z eqn:H1; [apply Z.ltb_lt in H1; nia |].
  apply Z.ltb_ge in H1.
  destruct (b <? 2 * (a mod b))%Z eqn:H2; [apply Z.ltb_lt in H2; nia |].
  apply Z.ltb_ge in H2. destruct (Z.even (a / b)); nia.
Qed.

Lemma round_half_even_le a b K :
  (0 < b)%Z → (a <= K * b)%Z → (round_half_even a b <= K)%Z.
Proof.
  intros Hb Ha. unfold round_half_even.
  pose proof (Z.div_mod a b ltac:(lia)) as Hdm.
  pose proof (Z.mod_pos_bound a b Hb) as Hr.
  assert (a / b <= K)%Z as Hq by nia.
  destruct (2 * (a mod b) <? b)%Z eqn:H1; [done |].
  apply Z.ltb_ge in H1.
  assert (a / b < K)%Z by nia.
  destruct (b <? 2 * (a mod b))%Z; [lia |].
  destruct (Z.even (a / b)); lia.
Qed.

Lemma round_half_even_nonneg a b :
  (0 < b)%Z → (0 <= a)%Z → (0 <= round_half_even a b)%Z.
Proof.
  intros Hb Ha. unfold round_half_even.
  pose proof (Z.div_pos a b Ha Hb).
  destruct (_ <? _)%Z; [done |]. destruct (_ <? _)%Z; [lia |].
  destruct (Z.even _); lia.
Qed.

Lemma scaled_pos n d s :
  (0 < n)%Z → (0 < (scaled n d s).1)%Z ∧ (0 < (scaled n d s).2)%Z.
Proof.
  intros Hn. unfold scaled. simpl.
  assert (0 < 2 ^ Z.max s 0)%Z by (apply Z.pow_pos_nonneg; lia).
  assert (0 < 2 ^ Z.max (- s) 0)%Z by (apply Z.pow_pos_nonneg; lia).
  split; nia.
Qed.

(** The scaled quotient has at least 53 bits. *)
Lemma scale_of_lower n d :
  (0 < n)%Z →
  (2 ^ 52 * (scaled n d (scale_of n d)).2 <= (scaled n d (scale_of n d)).1)%Z.
Proof.
  intros Hn. unfold scale_of.
  set (s0 := (52 + Z.log2 (Z.pos d) - Z.log2 n)%Z).
  destruct (_ <=? _)%Z eqn:Htest; [by apply Z.leb_le in Htest |].
  clear Htest. unfold scaled. cbn [fst snd].
  pose proof (Z.log2_spec n Hn) as [Hn1 _].
  pose proof (Z.log2_spec (Z.pos d) ltac:(lia)) as [_ Hd2].
  pose proof (Z.log2_nonneg n) as Ha.
  pose proof (Z.log2_nonneg (Z.pos d)) as Hb.
  set (a := Z.log2 n) in *. set (b := Z.log2 (Z.pos d)) in *.
  destruct (Z.le_gt_cases 0 (s0 + 1)) as [Hs|Hs].
  - rewrite (Z.max_l (s0 + 1) 0), (Z.max_r (- (s0 + 1)) 0) by lia.
    rewrite Z.pow_0_r, Z.mul_1_r.
    assert (2 ^ a * 2 ^ (s0 + 1) = 2 ^ 52 * 2 ^ Z.succ b)%Z as Heq.
    { rewrite <- !Z.pow_add_r by lia. f_equal. lia. }
    assert (0 < 2 ^ (s0 + 1))%Z by (apply Z.pow_pos_nonneg; lia).
    apply Z.le_trans with (2 ^ a * 2 ^ (s0 + 1))%Z.
    + rewrite Heq. apply Z.mul_le_mono_nonneg_l; lia.
    + apply Z.mul_le_mono_nonneg_r; lia.
  - rewrite (Z.max_r (s0 + 1) 0), (Z.max_l (- (s0 + 1)) 0) by lia.
    rewrite Z.pow_0_r, Z.mul_1_r.
    assert (2 ^ 52 * 2 ^ Z.succ b * 2 ^ (- (s0 + 1)) = 2 ^ a)%Z as Heq.
    { rewrite <- !Z.pow_add_r by lia. f_equal. lia. }
    assert (0 < 2 ^ (- (s0 + 1)))%Z by (apply Z.pow_pos_nonneg; lia).
    rewrite <- Heq in Hn1. etransitivity; [| exact Hn1].
    rewrite <- !Z.mul_assoc. apply Z.mul_le_mono_nonneg_l; [lia |].
    apply Z.mul_le_mono_nonneg_r; lia.
Qed.

Lemma float64_pos_error n d :
  (0 < n)%Z →
  (Qabs (float64_pos n d - (n # d)) <= (1 # 2 ^ 53) * (n # d))%Q.
Proof.
  intros Hn. unfold float64_pos.
  pose proof (scale_of_lower n d Hn) as Hlow.
  destruct (scaled_pos n d (scale_of n d) Hn) as [Hnum Hden].
  pose proof (round_half_even_nearest (scaled n d (scale_of n d)).1 _ Hden)
    as Hnear.
  set (m := round_half_even _ _) in *.
  unfold scaled in *. cbn [fst snd] in *.
  set (s := scale_of n d) in *.
  assert (0 < 2 ^ Z.max s 0)%Z as HS by (apply Z.pow_pos_nonneg; lia).
  assert (0 < 2 ^ Z.max (- s) 0)%Z as HP by (apply Z.pow_pos_nonneg; lia).
  set (S := (2 ^ Z.max s 0)%Z) in *. set (P := (2 ^ Z.max (- s) 0)%Z) in *.
  rewrite Qred_correct. apply Qabs_Qle_condition.
  unfold Qle, Qminus, Qplus, Qopp, Qmult. cbn [Qnum Qden].
  rewrite !Pos2Z.inj_mul, !Z2Pos.id by done.
  change (Z.pos (2 ^ 53)) with (2 * 2 ^ 52)%Z.
  set (c := (2 ^ 52)%Z) in *. assert (0 < c)%Z by done.
  pose proof (Pos2Z.is_pos d).
  split; nia.
Qed.

Lemma scale_of_nonneg n d :
  (0 < n <= Z.pos d)%Z → (0 <= scale_of n d)%Z.
Proof.
  intros [Hn Hd]. unfold scale_of.
  pose proof (Z.log2_le_mono n (Z.pos d) Hd).
  destruct (_ <=? _)%Z; lia.
Qed.

Lemma float64_pos_unit n d :
  (0 < n <= Z.pos d)%Z → (0 <= float64_pos n d)%Q ∧ (float64_pos n d <= 1)%Q.
Proof.
  intros Hnd. pose proof (scale_of_nonneg n d Hnd) as Hs.
  destruct Hnd as [Hn Hd]. unfold float64_pos.
  destruct (scaled_pos n d (scale_of n d) Hn) as [Hnum Hden].
  pose proof (round_half_even_nonneg (scaled n d (scale_of n d)).1 _ Hden
                ltac:(lia)) as Hm0.
  pose proof (round_half_even_le (scaled n d (scale_of n d)).1
                (scaled n d (scale_of n d)).2 (2 ^ Z.max (scale_of n d) 0))
    as Hm1.
  set (m := round_half_even _ _) in *.
  unfold scaled in *. cbn [fst snd] in *.
  set (s := scale_of n d) in *.
  rewrite (Z.max_r (- s) 0) in * by lia. rewrite Z.pow_0_r, !Z.mul_1_r in *.
  assert (0 < 2 ^ Z.max s 0)%Z as HS by (apply Z.pow_pos_nonneg; lia).
  set (S := (2 ^ Z.max s 0)%Z) in *.
  rewrite Qred_correct. unfold Qle. cbn [Qnum Qden].
  rewrite !Z2Pos.id by done. split; [lia |].
  specialize (Hm1 Hden ltac:(nia)). lia.
Qed.

Lemma float64_error x :
  (0 <= x)%Q → (Qabs (float64 x - x) <= (1 # 2 ^ 53) * x)%Q.
Proof.
  destruct x as [[|n|n] d]; unfold float64; cbn [Qnum Qden].
  - intros _. by vm_compute.
  - intros _. by apply float64_pos_error.
  - intros Hneg. by vm_compute in Hneg.
Qed.

Lemma float64_unit x :
  (0 <= x)%Q → (x <= 1)%Q → (0 <= float64 x)%Q ∧ (float64 x <= 1)%Q.
Proof.
  destruct x as [[|n|n] d]; unfold float64; cbn [Qnum Qden].
  - intros _ _. by vm_compute.
  - intros _ Hle. apply float64_pos_unit. unfold Qle in Hle. simpl in Hle. lia.
  - intros Hneg. by vm_compute in Hneg.
Qed.

(** The scaled quotient has at most 53 bits. *)
Lemma scale_of_upper n d :
  (0 < n)%Z →
  ((scaled n d (scale_of n d)).1 < 2 ^ 53 * (scaled n d (scale_of n d)).2)%Z.
Proof.
  intros Hn. unfold scale_of.
  set (s0 := (52 + Z.log2 (Z.pos d) - Z.log2 n)%Z).
  pose proof (Z.log2_spec n Hn) as [_ Hn2].
  pose proof (Z.log2_spec (Z.pos d) ltac:(lia)) as [Hd1 _].
  pose proof (Z.log2_nonneg n) as Ha.
  pose proof (Z.log2_nonneg (Z.pos d)) as Hb.
  set (a := Z.log2 n) in *. set (b := Z.log2 (Z.pos d)) in *.
  destruct (_ <=? _)%Z eqn:Htest.
  - clear Htest. unfold scaled. cbn [fst snd].
    destruct (Z.le_gt_cases 0 s0) as [Hs|Hs].
    + rewrite (Z.max_l s0 0), (Z.max_r (- s0) 0) by lia.
      rewrite Z.pow_0_r, Z.mul_1_r.
      assert (2 ^ Z.succ a * 2 ^ s0 = 2 ^ 53 * 2 ^ b)%Z as Heq.
      { rewrite <- !Z.pow_add_r by lia. f_equal. lia. }
      assert (0 < 2 ^ s0)%Z by (apply Z.pow_pos_nonneg; lia).
      apply Z.lt_le_trans with (2 ^ Z.succ a * 2 ^ s0)%Z.
      * apply Z.mul_lt_mono_pos_r; lia.
      * rewrite Heq. apply Z.mul_le_mono_nonneg_l; lia.
    + rewrite (Z.max_r s0 0), (Z.max_l (- s0) 0) by lia.
      rewrite Z.pow_0_r, Z.mul_1_r.
      assert (2 ^ 53 * (2 ^ b * 2 ^ (- s0)) = 2 ^ Z.succ a)%Z as Heq.
      { rewrite <- !Z.pow_add_r by lia. f_equal. lia. }
      assert (0 < 2 ^ (- s0))%Z by (apply Z.pow_pos_nonneg; lia).
      apply Z.lt_le_trans with (2 ^ Z.succ a)%Z; [done |].
      rewrite <- Heq. apply Z.mul_le_mono_nonneg_l; [lia |].
      apply Z.mul_le_mono_nonneg_r; lia.
  - apply Z.leb_gt in Htest. unfold scaled in *. cbn [fst snd] in *.
    change (2 ^ 53)%Z with (2 * 2 ^ 52)%Z.
    destruct (Z.le_gt_cases 0 s0) as [Hs|Hs].
    + rewrite (Z.max_l s0 0), (Z.max_r (- s0) 0) in Htest by lia.
      rewrite (Z.max_l (s0 + 1) 0), (Z.max_r (- (s0 + 1)) 0) by lia.
      rewrite Z.pow_add_r, Z.pow_1_r by lia. lia.
    + rewrite (Z.max_r s0 0), (Z.max_l (- s0) 0) in Htest by lia.
      rewrite (Z.max_r (s0 + 1) 0), (Z.max_l (- (s0 + 1)) 0) by lia.
      replace (- s0)%Z with (- (s0 + 1) + 1)%Z in Htest by lia.
      rewrite Z.pow_add_r, Z.pow_1_r in Htest by lia. lia.
Qed.


(** The floats written 0.3, 0.2 and 0.5, and two ties. *)
Example float64_three_tenths :
  float64 (3 # 10) = (5404319552844595 # 18014398509481984)%Q.
Proof. by vm_compute. Qed.

Example float64_two_tenths :
  float64 (2 # 10) = (3602879701896397 # 18014398509481984)%Q.
Proof. by vm_compute. Qed.

Example float64_five_tenths : float64 (5 # 10) = (1 # 2)%Q.
Proof. by vm_compute. Qed.

Example float64_ties_to_even :
  float64 (9007199254740993 # 1) = 9007199254740992%Q
  ∧ float64 (9007199254740995 # 1) = 9007199254740996%Q.
Proof. by vm_compute. Qed.

(** ** Association lists *)

Section Assoc.
Context {K V : Type} `{EqDecision K}.
Implicit Types (k : K) (v : V) (l : list (K * V)).

Lemma assoc_None k l : assoc k l = None ↔ k ∉ l.*1.
Proof.
  induction l as [|[k' v'] l IH]; simpl.
  - split; [intros _; apply not_elem_of_nil | done].
  - rewrite not_elem_of_cons. destruct (decide (k' = k)) as [->|Hne].
    + split; [done | intros [? _]; done].
    + rewrite IH. split; [intros ?; split; [congruence | done] | tauto].
Qed.

Lemma assoc_elem_of k v l : assoc k l = Some v → (k, v) ∈ l.
Proof.
  induction l as [|[k' v'] l IH]; simpl; [done |].
  destruct (decide (k' = k)) as [->|Hne].
  - intros [= ->]. apply list_elem_of_here.
  - intros Hl. apply list_elem_of_further, IH, Hl.
Qed.

Lemma assoc_NoDup k v l : NoDup l.*1 → (k, v) ∈ l → assoc k l = Some v.
Proof.
  induction l as [|[k' v'] l IH]; simpl.
  - intros _ Hin. by apply elem_of_nil in Hin.
  - rewrite NoDup_cons. intros [Hk' Hnd] Hin.
    apply elem_of_cons in Hin as [[= <- <-]|Hin].
    + by rewrite decide_True.
    + destruct (decide (k' = k)) as [->|Hne]; [| by apply IH].
      exfalso. apply Hk'. apply list_elem_of_fmap. by exists (k, v).
Qed.

Lemma assoc_is_Some k l : k ∈ l.*1 → is_Some (assoc k l).
Proof.
  intros Hin. destruct (assoc k l) eqn:Hl; [by eexists |].
  by apply assoc_None in Hl.
Qed.
End Assoc.

(** ** Counting rows per category *)

Lemma count_of_cons k x l :
  count_of k (x :: l) = indicator x k + count_of k l.
Proof.
  unfold count_of, indicator. rewrite filter_cons.
  destruct (decide (k = x)); reflexivity.
Qed.

Lemma sum_list_fmap_add {A} (f g : A → nat) (l : list A) :
  sum_list ((λ a, f a + g a) <$> l) = sum_list (f <$> l) + sum_list (g <$> l).
Proof. induction l as [|a l IH]; csimpl; [done | rewrite IH; lia]. Qed.

Lemma sum_indicator_absent x ks :
  x ∉ ks → sum_list (indicator x <$> ks) = 0.
Proof.
  induction ks as [|k ks IH]; csimpl; [done |].
  rewrite not_elem_of_cons. intros [Hne Hks]. rewrite IH by done.
  unfold indicator. by rewrite decide_False.
Qed.

Lemma sum_indicator x ks :
  NoDup ks → x ∈ ks → sum_list (indicator x <$> ks) = 1.
Proof.
  induction 1 as [|k ks Hk Hnd IH]; csimpl.
  - intros Hin. by apply elem_of_nil in Hin.
  - intros Hin. apply elem_of_cons in Hin as [->|Hin].
    + rewrite sum_indicator_absent by done.
      unfold indicator. by rewrite decide_True.
    + rewrite IH by done. unfold indicator.
      rewrite decide_False; [done |]. by intros ->.
Qed.

(** Grouping loses no row: over an index without duplicates that covers
    the labels, the counts add up to the number of rows. *)
Lemma sum_count_of ks l :
  NoDup ks → (∀ x, x ∈ l → x ∈ ks) →
  sum_list ((λ k, count_of k l) <$> ks) = length l.
Proof.
  intros Hnd. induction l as [|x l IH]; intros Hcov.
  - unfold count_of. simpl. by rewrite sum_list_fmap_const.
  - erewrite list_fmap_ext; [| intros ???; apply count_of_cons].
    rewrite sum_list_fmap_add, sum_indicator, IH; simpl; try done.
    + intros y Hy. apply Hcov. by apply list_elem_of_further.
    + apply Hcov, list_elem_of_here.
Qed.

Lemma count_of_pos k l : 0 < count_of k l ↔ k ∈ l.
Proof.
  induction l as [|x l IH].
  - unfold count_of; simpl. rewrite elem_of_nil. lia.
  - rewrite count_of_cons, elem_of_cons, <- IH. unfold indicator.
    destruct (decide (k = x)); [split; [by left | lia] |].
    split; [intros ?; right; lia | intros [?|?]; [done | lia]].
Qed.

Lemma elem_of_unique x l : x ∈ unique l ↔ x ∈ l.
Proof.
  induction l as [|y l IH]; [done |]. cbn [unique].
  rewrite !elem_of_cons, list_elem_of_filter, IH.
  destruct (decide (x = y)) as [->|Hne]; [by split; left |].
  split; [intros [?|[_ ?]]; [done | by right] | intros [?|?]; [done |]].
  by right.
Qed.

Lemma NoDup_unique l : NoDup (unique l).
Proof.
  induction l as [|y l IH]; [constructor |]. cbn [unique].
  apply NoDup_cons. split; [| by apply NoDup_filter].
  rewrite list_elem_of_filter. by intros [? _].
Qed.

(** Each label stands where it first appears. *)
Example unique_first_appearance :
  unique [Str "a"; Str "b"; Str "a"] = [Str "a"; Str "b"].
Proof. reflexivity. Qed.

Lemma NoDup_index_of s : NoDup (index_of s).
Proof. unfold index_of. destruct (dtype s); apply NoDup_unique. Qed.

Lemma index_of_covers s x : x ∈ dropna (values s) → x ∈ index_of s.
Proof.
  unfold index_of, values, dropna. destruct (dtype s) as [|cats].
  - by rewrite elem_of_unique.
  - rewrite elem_of_unique, list_elem_of_omap.
    intros (c & Hc & Hx). apply list_elem_of_fmap in Hc as (c' & -> & _).
    destruct c' as [v|]; simpl in Hx; [| done].
    destruct (decide (v ∈ cats)); simplify_eq/=. done.
Qed.

Lemma counts_snd s :
  (counts s).*2 = (λ k, count_of k (dropna (values s))) <$> index_of s.
Proof. unfold counts. by rewrite <- list_fmap_compose. Qed.

Lemma counts_fst s : (counts s).*1 = index_of s.
Proof.
  unfold counts. rewrite <- list_fmap_compose. apply list_fmap_id.
Qed.

Lemma sum_counts s : sum_list (counts s).*2 = length (dropna (values s)).
Proof.
  rewrite counts_snd. apply sum_count_of.
  - apply NoDup_index_of.
  - apply index_of_covers.
Qed.

Lemma elem_of_counts k c s :
  (k, c) ∈ counts s ↔ k ∈ index_of s ∧ c = count_of k (dropna (values s)).
Proof.
  unfold counts. rewrite list_elem_of_fmap. split.
  - intros (k' & [= -> ->] & Hk'). done.
  - intros [Hk ->]. by exists k.
Qed.

(** ** value_counts *)

Lemma sum_list_Permutation (l1 l2 : list nat) :
  l1 ≡ₚ l2 → sum_list l1 = sum_list l2.
Proof. induction 1; simpl; lia. Qed.

Lemma insert_by_count_Permutation x l : insert_by_count x l ≡ₚ x :: l.
Proof.
  induction l as [|y l IH]; [done |]. cbn [insert_by_count].
  case_decide; [done |]. by rewrite IH, Permutation_swap.
Qed.

Lemma sort_by_count_Permutation l : sort_by_count l ≡ₚ l.
Proof.
  induction l as [|x l IH]; [done |]. unfold sort_by_count in *.
  cbn [foldr]. by rewrite insert_by_count_Permutation, IH.
Qed.

Lemma insert_by_count_Sorted x l :
  Sorted by_count_desc l → Sorted by_count_desc (insert_by_count x l).
Proof.
  induction 1 as [|y l Hl IH Hy]; cbn [insert_by_count].
  - by repeat constructor.
  - case_decide as Hle.
    + constructor; [by constructor |]. by constructor.
    + constructor; [done |].
      assert (by_count_desc y x) by (unfold by_count_desc; lia).
      destruct Hy as [|z l Hz]; cbn [insert_by_count]; [by constructor |].
      case_decide; by constructor.
Qed.

(** The counts come out largest first. *)
Lemma sort_by_count_Sorted l : Sorted by_count_desc (sort_by_count l).
Proof.
  induction l as [|x l IH]; [constructor |].
  by apply insert_by_count_Sorted.
Qed.

(** Equal counts keep their order, and a larger count moves to the front. *)
Example sort_by_count_stable :
  sort_by_count [(Str "a", 1); (Str "b", 1); (Str "c", 2); (Str "d", 1)]
  = [(Str "c", 2); (Str "a", 1); (Str "b", 1); (Str "d", 1)].
Proof. reflexivity. Qed.

Lemma sorted_counts_total s :
  sum_list (sort_by_count (counts s)).*2
  = length (dropna (values s)).
Proof.
  rewrite <- sum_counts. apply sum_list_Permutation.
  by rewrite sort_by_count_Permutation.
Qed.

Lemma value_counts_keys n s : (value_counts n s).*1 ≡ₚ index_of s.
Proof.
  transitivity ((sort_by_count (counts s)).*1).
  - unfold value_counts.
    destruct n; by rewrite <- list_fmap_compose.
  - by rewrite sort_by_count_Permutation, counts_fst.
Qed.

Lemma NoDup_value_counts n s : NoDup (value_counts n s).*1.
Proof. rewrite value_counts_keys. apply NoDup_index_of. Qed.

Lemma elem_of_value_counts_count k v s :
  (k, v) ∈ value_counts false s ↔
  k ∈ index_of s
  ∧ v = Some (inject_Z (Z.of_nat (count_of k (dropna (values s))))).
Proof.
  unfold value_counts. rewrite list_elem_of_fmap. split.
  - intros ([k' c] & [= -> ->] & Hin).
    rewrite sort_by_count_Permutation in Hin.
    apply elem_of_counts in Hin as [? ->]. done.
  - intros [Hk ->]. exists (k, count_of k (dropna (values s))).
    split; [done |]. rewrite sort_by_count_Permutation. by apply elem_of_counts.
Qed.

Lemma elem_of_value_counts_freq k v s :
  (k, v) ∈ value_counts true s ↔
  k ∈ index_of s
  ∧ v = divide (count_of k (dropna (values s))) (length (dropna (values s))).
Proof.
  unfold value_counts. rewrite sorted_counts_total, list_elem_of_fmap. split.
  - intros ([k' c] & [= -> ->] & Hin).
    rewrite sort_by_count_Permutation in Hin.
    apply elem_of_counts in Hin as [? ->]. done.
  - intros [Hk ->]. exists (k, count_of k (dropna (values s))).
    split; [done |]. rewrite sort_by_count_Permutation. by apply elem_of_counts.
Qed.

(** A declared category that no row bears is counted 0, and a column without
    non-missing rows has NaN frequencies. *)
Example value_counts_size :
  value_counts false size = [(Str "S", Some 2%Q); (Str "M", Some 0%Q)].
Proof. by vm_compute. Qed.

Example value_counts_all_missing :
  value_counts true {| dtype := category [Str "S"]; data := [None] |}
  = [(Str "S", None)].
Proof. by vm_compute. Qed.

(** Equal counts come out in the order in which the labels first appear. *)
Example value_counts_ties :
  value_counts false (labels ["b"; "a"; "b"; "c"; "a"])
  = [(Str "b", Some 2%Q); (Str "a", Some 2%Q); (Str "c", Some 1%Q)].
Proof. by vm_compute. Qed.

(** ** Sums of statistics *)

Lemma sum_numbers_cons x l :
  sum_numbers (x :: l) = add_number x (sum_numbers l).
Proof. reflexivity. Qed.

Lemma sum_numbers_count (cs : list (scalar * nat)) :
  ∃ q, sum_numbers ((λ kc, Some (inject_Z (Z.of_nat kc.2))) <$> cs) = Some q
       ∧ (q == inject_Z (Z.of_nat (sum_list cs.*2)))%Q.
Proof.
  induction cs as [|[k c] cs (q & Hq & Heq)].
  - by exists 0%Q.
  - rewrite fmap_cons, sum_numbers_cons, Hq. simpl.
    eexists; split; [done |]. rewrite Heq, <- inject_Z_plus.
    by rewrite Nat2Z.inj_add.
Qed.

Lemma quotient_add c t n :
  (quotient (c + t) n == quotient c n + quotient t n)%Q.
Proof.
  unfold quotient, Qeq, Qplus. cbn [Qnum Qden].
  rewrite Nat2Z.inj_add, Pos2Z.inj_mul. ring.
Qed.

Lemma quotient_nonneg c n : (0 <= quotient c n)%Q.
Proof. unfold quotient, Qle. cbn [Qnum Qden]. lia. Qed.

Lemma quotient_le_1 c n : c ≤ n → 0 < n → (quotient c n <= 1)%Q.
Proof. intros Hc Hn. unfold quotient, Qle. cbn [Qnum Qden]. lia. Qed.

Lemma quotient_self n : 0 < n → (quotient n n == 1)%Q.
Proof. intros Hn. unfold quotient, Qeq. cbn [Qnum Qden]. lia. Qed.

(** The rounded frequencies add up to the quotient of the counts, up to the
    relative error of one rounding. *)
Lemma sum_numbers_freq (cs : list (scalar * nat)) n :
  ∃ q, sum_numbers ((λ kc, divide kc.2 (S n)) <$> cs) = Some q
       ∧ (Qabs (q - quotient (sum_list cs.*2) (S n))
          <= (1 # 2 ^ 53) * quotient (sum_list cs.*2) (S n))%Q.
Proof.
  induction cs as [|[k c] cs (q & Hq & Heq)].
  - exists 0%Q. split; [done |]. by vm_compute.
  - rewrite fmap_cons, sum_numbers_cons, Hq. cbn [snd divide add_number].
    eexists; split; [done |].
    assert (Hs : sum_list ((k, c) :: cs).*2 = c + sum_list cs.*2) by done.
    rewrite Hs, quotient_add. revert Heq. generalize (sum_list cs.*2).
    intros t Heq.
    setoid_replace (float64 (quotient c (S n)) + q
                    - (quotient c (S n) + quotient t (S n)))%Q
      with ((float64 (quotient c (S n)) - quotient c (S n))
            + (q - quotient t (S n)))%Q using relation Qeq by ring.
    eapply Qle_trans; [apply Qabs_triangle |].
    setoid_replace ((1 # 2 ^ 53) * (quotient c (S n) + quotient t (S n)))%Q
      with ((1 # 2 ^ 53) * quotient c (S n)
            + (1 # 2 ^ 53) * quotient t (S n))%Q using relation Qeq by ring.
    apply Qplus_le_compat; [| exact Heq].
    apply float64_error, quotient_nonneg.
Qed.

Lemma value_counts_count_sum s :
  ∃ q, sum_numbers (value_counts false s).*2 = Some q
       ∧ (q == inject_Z (Z.of_nat (length (dropna (values s)))))%Q.
Proof.
  unfold value_counts. rewrite <- list_fmap_compose.
  rewrite <- sorted_counts_total. apply sum_numbers_count.
Qed.

Lemma value_counts_freq_sum s :
  0 < length (dropna (values s)) →
  ∃ q, sum_numbers (value_counts true s).*2 = Some q
       ∧ (Qabs (q - 1) <= 1 # 2 ^ 53)%Q.
Proof.
  intros Hpos. unfold value_counts. rewrite <- list_fmap_compose.
  rewrite sorted_counts_total.
  destruct (length (dropna (values s))) as [|n] eqn:Hlen; [lia |].
  destruct (sum_numbers_freq (sort_by_count (counts s)) n)
    as (q & Hq & Heq).
  exists q. split; [exact Hq |].
  rewrite sorted_counts_total, Hlen, quotient_self in Heq by lia.
  by rewrite Qmult_1_r in Heq.
Qed.

Lemma count_of_le k l : count_of k l ≤ length l.
Proof. unfold count_of. apply length_filter. Qed.

(** A frequency is the float64 quotient of the count and the total: within
    one rounding of the exact quotient, and between 0 and 1. *)
Lemma divide_spec c total q :
  c ≤ total → divide c total = Some q →
  q = float64 (quotient c total)
  ∧ (Qabs (q - quotient c total) <= (1 # 2 ^ 53) * quotient c total)%Q
  ∧ (0 <= q)%Q ∧ (q <= 1)%Q.
Proof.
  intros Hle. destruct total as [|n]; simpl; [done |]. intros [= <-].
  split; [done |]. split; [apply float64_error, quotient_nonneg |].
  apply float64_unit; [apply quotient_nonneg | apply quotient_le_1; lia].
Qed.

(** ** The loop of fit *)

Lemma set_encoder_dict__id self d :
  encoder_dict_ self = Some d → set_encoder_dict_ d self = self.
Proof. destruct self; simpl; intros ->; reflexivity. Qed.

Lemma for_learn X dct vars : ∀ self d,
  encoder_dict_ self = Some d →
  for_ vars (learn_encoding_map X dct) self
  = (set_encoder_dict_ (learned (encoding_method self) dct X vars d).1 self,
     (learned (encoding_method self) dct X vars d).2).
Proof.
  induction vars as [|var vars IH]; intros self d Hd.
  - simpl. unfold ret. by rewrite set_encoder_dict__id.
  - cbn [for_ learned]. unfold bind at 1.
    unfold learn_encoding_map, normalized, bind at 1, gets at 1.
    destruct (String.eqb (encoding_method self) "count").
    { unfold bind at 1, getitem_column.
      destruct (column X var) as [col|]; unfold ret, raise.
      - unfold setitem_encoder_dict_, bind, getattr, modify. rewrite Hd.
        erewrite IH by reflexivity. reflexivity.
      - simpl. by rewrite set_encoder_dict__id. }
    destruct (String.eqb (encoding_method self) "frequency").
    { unfold bind at 1, getitem_column.
      destruct (column X var) as [col|]; unfold ret, raise.
      - unfold setitem_encoder_dict_, bind, getattr, modify. rewrite Hd.
        erewrite IH by reflexivity. reflexivity.
      - simpl. by rewrite set_encoder_dict__id. }
    unfold ret. by apply IH.
Qed.

Section Learned.
Context (method : string) (dct : Mapping) (X : DataFrame).
Implicit Types (vars : list string) (d : gmap string Mapping).

Lemma learned_lookup_notin vars : ∀ d v,
  v ∉ vars → (learned method dct X vars d).1 !! v = d !! v.
Proof.
  induction vars as [|var vars IH]; intros d v Hv; [done |].
  apply not_elem_of_cons in Hv as [Hne Hv]. simpl.
  destruct (normalized method); [| by apply IH].
  destruct (column X var); [| done].
  rewrite IH by done. by apply lookup_insert_ne.
Qed.

(** A successful loop stores, for every variable, the value counts of its
    column. *)
Lemma learned_lookup n vars : ∀ d d' v,
  normalized method = Some n →
  learned method dct X vars d = (d', inr tt) → v ∈ vars →
  ∃ col, column X v = Some col
         ∧ d' !! v = Some (to_dict (value_counts n col) dct).
Proof.
  intros d d' v Hn. revert d.
  induction vars as [|var vars IH]; intros d Hrun Hv.
  - by apply elem_of_nil in Hv.
  - simpl in Hrun. rewrite Hn in Hrun.
    destruct (column X var) as [col|] eqn:Hcol; [| done].
    destruct (decide (v ∈ vars)) as [Hin|Hout]; [by eapply IH |].
    apply elem_of_cons in Hv as [->|?]; [| done].
    exists col. split; [done |].
    pose proof (learned_lookup_notin vars
      (<[var := to_dict (value_counts n col) dct]> d) var Hout) as Hl.
    rewrite Hrun in Hl. simpl in Hl. by rewrite Hl, lookup_insert_eq.
Qed.

(** Every mapping in the dictionary after the loop was there before or was
    built by [to_dict] from [dct]. *)
Lemma learned_invariant (P : Mapping → Prop) vars : ∀ d,
  (∀ n col, P (to_dict (value_counts n col) dct)) →
  (∀ v m, d !! v = Some m → P m) →
  ∀ v m, (learned method dct X vars d).1 !! v = Some m → P m.
Proof.
  induction vars as [|var vars IH]; intros d Hnew Hold v m; simpl.
  - apply Hold.
  - destruct (normalized method) as [n|]; [| by apply IH].
    destruct (column X var) as [col|]; [| apply Hold].
    apply IH; [done |]. intros v' m'.
    rewrite lookup_insert. case_decide; [intros [= <-]; apply Hnew |].
    apply Hold.
Qed.

(** The loop fails only on a variable that is not a column. *)
Lemma learned_succeeds vars : ∀ d,
  (∀ v, v ∈ vars → is_Some (column X v)) →
  (learned method dct X vars d).2 = inr tt.
Proof.
  induction vars as [|var vars IH]; intros d Hcols; [done |]. simpl.
  assert (∀ v, v ∈ vars → is_Some (column X v)) as Hrest.
  { intros v Hv. apply Hcols. by apply list_elem_of_further. }
  destruct (normalized method); [| by apply IH].
  destruct (Hcols var) as [col ->]; [apply list_elem_of_here |].
  by apply IH.
Qed.
End Learned.

(** ** fit *)

Lemma value_counts_counts_learned col dct :
  counts_learned col (to_dict (value_counts false col) dct).
Proof.
  unfold counts_learned, keys. cbn [items to_dict].
  split; [apply NoDup_value_counts |].
  split; [| split; [| apply value_counts_count_sum]].
  - intros c Hc. rewrite value_counts_keys. by apply index_of_covers.
  - intros c n Hl. apply assoc_elem_of in Hl.
    by apply elem_of_value_counts_count in Hl as [_ ->].
Qed.

Lemma value_counts_frequencies_learned col dct :
  0 < length (dropna (values col)) →
  frequencies_learned col (to_dict (value_counts true col) dct).
Proof.
  intros Hpos. unfold frequencies_learned, keys. cbn [items to_dict].
  split; [apply NoDup_value_counts |]. split; [| split].
  - intros c Hc. rewrite value_counts_keys. by apply index_of_covers.
  - intros c n Hl. apply assoc_elem_of in Hl.
    apply elem_of_value_counts_freq in Hl as [_ ->].
    destruct (divide (count_of c (dropna (values col)))
                (length (dropna (values col)))) as [q|] eqn:Hq.
    + exists q. split; [done |]. eapply divide_spec; [apply count_of_le | done].
    + destruct (length (dropna (values col))); [lia | done].
  - destruct (value_counts_freq_sum col Hpos) as (q & Hq & Heq).
    exists q. split; [done |]. eapply Qle_trans; [exact Heq |]. by vm_compute.
Qed.

Section Fit.
Context (check_X : DataFrame → exn + DataFrame)
        (select : DataFrame → option (list string) → bool
                  → exn + list string).

Lemma fit_eq X self :
  fit check_X select X self = fit_reading check_X select X self.
Proof.
  unfold fit, fit_reading, _fit, _get_feature_names_in, bind, lift, gets,
    modify, getattr.
  destruct (check_X X) as [e|X']; [done |].
  destruct (select X' (variables self) (ignore_format self)) as [e|vars];
    [done |].
  cbn [variables_ set_encoder_dict_ set_feature_names_in_ set_variables_
       errors].
  erewrite for_learn by reflexivity.
  cbn [encoding_method]. fold (dct_init_of (errors self)).
  destruct (learned _ _ _ _ _) as [d [e|[]]]; cbn [fst snd]; [done |].
  unfold _check_encoding_dictionary, bind, gets, getattr, raise, ret.
  cbn [errors encoder_dict_ set_encoder_dict_ set_feature_names_in_
       set_variables_].
  destruct (String.eqb (errors self) "encode"); [| done].
  cbn [andb]. cbv [encoder_dict_ set_encoder_dict_].
  by destruct (existsb has_zero (map_to_list d).*2).
Qed.

(** The shape of a successful fit. *)
Lemma fit_inv X self self' r :
  fit check_X select X self = (self', inr r) →
  ∃ X' vars d,
    check_X X = inr X'
    ∧ select X' (variables self) (ignore_format self) = inr vars
    ∧ learned (encoding_method self) (dct_init_of (errors self)) X' vars ∅
      = (d, inr tt)
    ∧ self' = set_encoder_dict_ d
                (set_feature_names_in_ (columns X') (length (columns X'))
                   (set_variables_ vars self))
    ∧ r = self'.
Proof.
  rewrite fit_eq. unfold fit_reading.
  destruct (check_X X) as [e|X'] eqn:HX; [done |].
  destruct (select X' _ _) as [e|vars] eqn:Hsel; [done |].
  destruct (learned _ _ _ _ _) as [d [e|[]]] eqn:Hl; cbn [fst snd];
    [done |].
  destruct (_ && _); [done |]. intros [= <- <-].
  exists X', vars, d. repeat split; done.
Qed.

(** The outcome of fit on a frame that the collaborators accept and whose
    selected variables are columns: the loop cannot fail, and only the
    consistency check decides. *)
Lemma fit_run X X' vars self :
  check_X X = inr X' →
  select X' (variables self) (ignore_format self) = inr vars →
  (∀ v, v ∈ vars → is_Some (column X' v)) →
  ∃ d,
    learned (encoding_method self) (dct_init_of (errors self)) X' vars ∅
    = (d, inr tt)
    ∧ let self' := set_encoder_dict_ d
                     (set_feature_names_in_ (columns X')
                        (length (columns X')) (set_variables_ vars self)) in
      fit check_X select X self
      = (self',
         if String.eqb (errors self) "encode"
            && existsb has_zero (map_to_list d).*2
         then inl ConsistencyError else inr self').
Proof.
  intros HX Hsel Hcols. rewrite fit_eq. unfold fit_reading.
  rewrite HX, Hsel.
  pose proof (learned_succeeds (encoding_method self)
    (dct_init_of (errors self)) X' vars ∅ Hcols) as Hok.
  destruct (learned _ _ _ _ _) as [d out]. simpl in Hok. subst out.
  exists d. split; [done |]. cbn [fst snd].
  by destruct (_ && _).
Qed.

(** What a successful fit stored for a fitted variable: the value counts of
    its column in the validated frame. *)
Lemma fit_stores_value_counts n X X' self self' r vars v col :
  normalized (encoding_method self) = Some n →
  fit check_X select X self = (self', inr r) →
  check_X X = inr X' →
  variables_ self' = Some vars →
  v ∈ vars →
  column X' v = Some col →
  ∃ d, encoder_dict_ self' = Some d
       ∧ d !! v = Some (to_dict (value_counts n col)
                          (dct_init_of (errors self))).
Proof.
  intros Hn Hfit HX Hvars Hv Hcol.
  apply fit_inv in Hfit as (X'' & vars' & d & HX' & _ & Hl & -> & _).
  rewrite HX in HX'. injection HX' as <-.
  cbn [variables_ set_encoder_dict_ set_feature_names_in_ set_variables_]
    in Hvars. injection Hvars as <-.
  destruct (learned_lookup _ _ X' n vars' ∅ d v Hn Hl Hv)
    as (col' & Hcol' & Hd).
  rewrite Hcol in Hcol'. injection Hcol' as <-. by exists d.
Qed.

(** C1. Under ['count'], a successful fit stores in [encoder_dict_], for
    every fitted variable, a mapping that sends each category of the column
    to the number of training rows bearing it, and the statistics of the
    distinct categories add up to the number of non-missing rows. *)
Theorem fit_count_statistics X X' self self' r vars v col :
  encoding_method self = "count" →
  fit check_X select X self = (self', inr r) →
  check_X X = inr X' →
  variables_ self' = Some vars →
  v ∈ vars →
  column X' v = Some col →
  ∃ d m, encoder_dict_ self' = Some d ∧ d !! v = Some m
         ∧ counts_learned col m.
Proof.
  intros Hm Hfit HX Hvars Hv Hcol.
  destruct (fit_stores_value_counts false X X' self self' r vars v col)
    as (d & Hd & Hdv); try done; [by rewrite Hm |].
  eexists d, _. split; [done |]. split; [done |].
  apply value_counts_counts_learned.
Qed.

(** C2. Under ['frequency'], a successful fit stores, for every fitted
    variable with at least one non-missing row, a mapping that sends each
    category to its count divided by the number of non-missing rows, in
    float64: a value in [0,1] within one rounding of the exact quotient.
    The statistics of the distinct categories add up to 1 within 1e-9. *)
Theorem fit_frequency_statistics X X' self self' r vars v col :
  encoding_method self = "frequency" →
  fit check_X select X self = (self', inr r) →
  check_X X = inr X' →
  variables_ self' = Some vars →
  v ∈ vars →
  column X' v = Some col →
  0 < length (dropna (values col)) →
  ∃ d m, encoder_dict_ self' = Some d ∧ d !! v = Some m
         ∧ frequencies_learned col m.
Proof.
  intros Hm Hfit HX Hvars Hv Hcol Hpos.
  destruct (fit_stores_value_counts true X X' self self' r vars v col)
    as (d & Hd & Hdv); try done; [by rewrite Hm |].
  eexists d, _. split; [done |]. split; [done |].
  by apply value_counts_frequencies_learned.
Qed.

(** C3. Every mapping that a successful fit stores in [encoder_dict_] is,
    under the policy ['encode'], a defaultdict whose own lookup gives 0 for
    an absent key; under any other policy it is a dict without default,
    whose lookup of an absent key raises KeyError. *)
Theorem fit_default_valued_maps X self self' r :
  fit check_X select X self = (self', inr r) →
  ∃ d, encoder_dict_ self' = Some d
    ∧ ∀ v m, d !! v = Some m →
        (errors self = "encode" →
           default_factory m = Some (Some 0%Q)
           ∧ ∀ k, k ∉ keys m → (getitem m k).2 = inr (Some 0%Q))
        ∧ (errors self ≠ "encode" →
           default_factory m = None
           ∧ ∀ k, k ∉ keys m → getitem m k = (m, inl (KeyError k))).
Proof.
  intros Hfit.
  apply fit_inv in Hfit as (X' & vars & d & _ & _ & Hl & -> & _).
  exists d. split; [done |]. intros v m Hv.
  assert (default_factory m = default_factory (dct_init_of (errors self)))
    as Hdef.
  { eapply (learned_invariant (encoding_method self)
              (dct_init_of (errors self)) X'
              (λ m, default_factory m = default_factory _) vars ∅).
    - done.
    - intros ??. by rewrite lookup_empty.
    - rewrite Hl. exact Hv. }
  unfold dct_init_of in Hdef. split.
  - intros He. rewrite He in Hdef. simpl in Hdef. split; [done |].
    intros k Hk. apply assoc_None in Hk. unfold getitem.
    by rewrite Hk, Hdef.
  - intros He. apply String.eqb_neq in He. rewrite He in Hdef.
    simpl in Hdef. split; [done |].
    intros k Hk. apply assoc_None in Hk. unfold getitem.
    by rewrite Hk, Hdef.
Qed.


End Fit.

(** ** The consistency check *)

Lemma has_zero_spec m :
  has_zero m = true ↔ ∃ k q, (k, Some q) ∈ items m ∧ (q == 0)%Q.
Proof.
  unfold has_zero. rewrite existsb_exists. split.
  - intros ([k [q|]] & Hin & Hz); simpl in Hz; [| done].
    exists k, q. split; [by apply list_elem_of_In |]. by apply Qeq_bool_iff.
  - intros (k & q & Hin & Hz). exists (k, Some q).
    split; [by apply list_elem_of_In |]. by apply Qeq_bool_iff.
Qed.

Lemma scan_zero_statistic (d : gmap string Mapping) :
  existsb has_zero (map_to_list d).*2 = true ↔ zero_statistic d.
Proof.
  rewrite existsb_exists. unfold zero_statistic. split.
  - intros (m & Hin & Hz). apply list_elem_of_In in Hin.
    apply list_elem_of_fmap in Hin as ([v m'] & -> & Hin).
    apply elem_of_map_to_list in Hin. apply has_zero_spec in Hz as (k & q & ?).
    by exists v, m', k, q.
  - intros (v & m & k & q & Hv & Hin & Hz). exists m. split.
    + apply list_elem_of_In, list_elem_of_fmap. exists (v, m).
      split; [done |]. by apply elem_of_map_to_list.
    + apply has_zero_spec. by exists k, q.
Qed.

Lemma check_no_effect self :
  errors self ≠ "encode" → _check_encoding_dictionary self = (self, inr tt).
Proof.
  intros He. apply String.eqb_neq in He.
  unfold _check_encoding_dictionary, bind, gets. by rewrite He.
Qed.

Section Consistency.
Context (check_init : option (list string) → bool
                      → exn + (option (list string) * bool))
        (check_X : DataFrame → exn + DataFrame)
        (select : DataFrame → option (list string) → bool
                  → exn + list string).

(** C4, as the code has it.  On a frame that the collaborators accept, fit
    builds the maps, assigns them to [encoder_dict_] and then checks them:
    under ['encode'] it raises ConsistencyError exactly when a learned
    statistic is 0, and returns no encoder then, but the attributes that it
    assigned before the check stay on the object; under the other policies
    the check does nothing and fit succeeds. *)
Theorem fit_consistency_check X X' vars self :
  check_X X = inr X' →
  select X' (variables self) (ignore_format self) = inr vars →
  (∀ v, v ∈ vars → is_Some (column X' v)) →
  ∃ self' d,
    (fit check_X select X self).1 = self'
    ∧ learned (encoding_method self) (dct_init_of (errors self)) X' vars ∅
      = (d, inr tt)
    ∧ encoder_dict_ self' = Some d
    ∧ variables_ self' = Some vars
    ∧ feature_names_in_ self' = Some (columns X')
    ∧ n_features_in_ self' = Some (length (columns X'))
    ∧ (errors self = "encode" → zero_statistic d →
       (fit check_X select X self).2 = inl ConsistencyError)
    ∧ (errors self = "encode" → ¬ zero_statistic d →
       (fit check_X select X self).2 = inr self')
    ∧ (errors self ≠ "encode" →
       (fit check_X select X self).2 = inr self'
       ∧ _check_encoding_dictionary self' = (self', inr tt)).
Proof.
  intros HX Hsel Hcols.
  destruct (fit_run check_X select X X' vars self HX Hsel Hcols)
    as (d & Hl & Hfit).
  cbv zeta in Hfit. rewrite Hfit. cbn [fst snd].
  eexists _, d. do 6 (split; [done |]). split; [| split].
  - intros He Hz. apply scan_zero_statistic in Hz. by rewrite He, Hz.
  - intros He Hz. rewrite He. cbn [String.eqb andb].
    destruct (existsb has_zero (map_to_list d).*2) eqn:Hscan; [| done].
    by apply scan_zero_statistic in Hscan.
  - intros He. split; [| by apply check_no_effect].
    apply String.eqb_neq in He. by rewrite He.
Qed.




End Consistency.

(** ** Construction *)

(** With valid arguments of its own, the constructor ends as the constructor
    of the base class does. *)
Lemma init_base_error check_init method explicit override policy e :
  method ∈ ["count"; "frequency"] → policy ∈ ["ignore"; "raise"; "encode"] →
  check_init explicit override = inl e →
  __init__ check_init method explicit override policy = inl e.
Proof.
  intros Hm Hp He.
  unfold __init__, check_parameter_errors, CategoricalInitMixin_init.
  rewrite bool_decide_eq_true_2 by done. cbn [negb].
  by rewrite decide_True, He.
Qed.

(** C9. A construction with an [encoding_method] other than ['count'] and
    ['frequency'], or an [errors] other than ['ignore'], ['raise'] and
    ['encode'], ends in a ConfigError and yields no encoder; the constructor
    takes no dataset. *)
Theorem init_rejects_invalid check_init method explicit override policy :
  method ∉ ["count"; "frequency"] ∨ policy ∉ ["ignore"; "raise"; "encode"] →
  ∃ msg,
    __init__ check_init method explicit override policy
    = inl (ConfigError msg).
Proof.
  intros Hbad. unfold __init__, check_parameter_errors.
  case_bool_decide as Hm; simpl; [| by eexists].
  destruct Hbad as [? | Hp]; [done |].
  rewrite decide_False by done. by eexists.
Qed.

(** ** transform and inverse_transform *)

Lemma columns_map_fitted f fs X : columns (map_fitted f fs X) = columns X.
Proof.
  unfold columns, map_fitted. rewrite <- list_fmap_compose.
  apply list_fmap_ext. intros _ [name s] _. simpl.
  case_decide; [| done]. by destruct (fitted_dict fs !! name).
Qed.

Lemma column_map_fitted f fs X v m s :
  v ∈ fitted_variables fs → fitted_dict fs !! v = Some m →
  column X v = Some s → column (map_fitted f fs X) v = Some (f m s).
Proof.
  intros Hv Hm. induction X as [|[name t] X IH]; simpl; [done |].
  destruct (decide (name = v)) as [->|Hne].
  - intros [= ->]. rewrite decide_True by done. rewrite Hm. simpl.
    by rewrite decide_True.
  - intros Hcol. case_decide.
    + destruct (fitted_dict fs !! name); simpl;
        rewrite decide_False by done; by apply IH.
    + simpl. rewrite decide_False by done. by apply IH.
Qed.

Lemma elem_of_reverse m q k : (q, k) ∈ reverse m ↔ (k, Some q) ∈ items m.
Proof.
  unfold reverse. rewrite list_elem_of_omap. split.
  - intros ([k' [q'|]] & Hin & Heq); simplify_eq/=. done.
  - intros Hin. by exists (k, Some q).
Qed.

(** Decoding undoes encoding on a category whose statistic no other category
    shares. *)
Lemma decode_encode_cell m c q :
  injective_mapping m → assoc c (items m) = Some (Some q) →
  decode_cell m (encode_cell m (Some c)) = Some c.
Proof.
  intros Hinj Hc. unfold encode_cell, lookup_stat. rewrite Hc. simpl.
  apply assoc_elem_of in Hc.
  destruct (assoc q (reverse m)) as [k|] eqn:Hq.
  - apply assoc_elem_of, elem_of_reverse in Hq. f_equal. by eapply Hinj.
  - apply assoc_None in Hq. exfalso. apply Hq.
    apply list_elem_of_fmap. exists (q, c). split; [done |].
    by apply elem_of_reverse.
Qed.

(** A cell without a key in the reverse mapping passes through. *)
Lemma decode_cell_pass m c : no_reverse_key m c → decode_cell m c = c.
Proof.
  destruct c as [[s|q]|]; simpl; try done.
  intros Hq. apply assoc_None in Hq. by rewrite Hq.
Qed.

Lemma existsb_unseen m l c :
  Some c ∈ l → c ∉ keys m → existsb (unseen m) l = true.
Proof.
  intros Hin Hc. apply existsb_exists. exists (Some c).
  split; [by apply list_elem_of_In |]. simpl. by apply bool_decide_eq_true.
Qed.

(** C5. Under ['raise'], a frame that holds, in a fitted variable, a category
    absent from its learned mapping makes the whole call fail with an
    UnseenCategoryError that names exactly the variables holding unseen
    categories; no frame is returned.  The encoder is only read, so the same
    encoder transforms a frame without unseen categories, and transforms the
    same frame under any other policy. *)
Theorem transform_raise_unseen self fs X v m s c :
  fitted_state self = Some fs →
  errors self = "raise" →
  columns X = fitted_names fs →
  v ∈ fitted_variables fs →
  fitted_dict fs !! v = Some m →
  column X v = Some s →
  Some c ∈ values s →
  c ∉ keys m →
  (∃ vs, transform self X = inl (UnseenCategoryError vs)
         ∧ v ∈ vs
         ∧ ∀ u, u ∈ vs ↔ u ∈ fitted_variables fs ∧ has_unseen fs X u = true)
  ∧ (∀ X2, columns X2 = fitted_names fs →
           (∀ u, u ∈ fitted_variables fs → has_unseen fs X2 u = false) →
           transform self X2 = inr (map_fitted encode_column fs X2))
  ∧ (∀ policy, policy ≠ "raise" →
       transform (set_config (encoding_method self) policy self) X
       = inr (map_fitted encode_column fs X)).
Proof.
  intros Hfs He HX Hv Hm Hs Hc Hk.
  assert (has_unseen fs X v = true) as Hun.
  { unfold has_unseen. rewrite Hm, Hs. by eapply existsb_unseen. }
  split; [| split].
  - exists (filter (λ u, has_unseen fs X u) (fitted_variables fs)).
    assert (∀ u, u ∈ filter (λ u, has_unseen fs X u) (fitted_variables fs)
                 ↔ u ∈ fitted_variables fs ∧ has_unseen fs X u = true) as Hf.
    { intros u. rewrite list_elem_of_filter. rewrite Is_true_true. tauto. }
    split; [| split; [by apply Hf | done]].
    unfold transform. rewrite Hfs, He, bool_decide_eq_true_2 by done.
    rewrite bool_decide_eq_false_2; [done |].
    intros Hnil.
    assert (v ∈ @nil string) as Hin; [| by apply elem_of_nil in Hin].
    rewrite <- Hnil. by apply Hf.
  - intros X2 HX2 Hseen. unfold transform.
    rewrite Hfs, bool_decide_eq_true_2 by done.
    rewrite (bool_decide_eq_true_2 (filter _ _ = []));
      [by rewrite andb_false_r |].
    destruct (filter _ _) as [|u us] eqn:Hfil; [done |].
    assert (u ∈ filter (λ u, has_unseen fs X2 u) (fitted_variables fs)) as Hu
      by (rewrite Hfil; apply list_elem_of_here).
    apply list_elem_of_filter in Hu as [Hu Hin].
    rewrite Hseen in Hu by done. done.
  - intros policy Hp. unfold transform.
    assert (fitted_state (set_config (encoding_method self) policy self)
            = Some fs) as -> by (by destruct self).
    rewrite bool_decide_eq_true_2 by done. simpl.
    apply String.eqb_neq in Hp. by rewrite Hp.
Qed.

Lemma values_plain l : values {| dtype := plain; data := l |} = l.
Proof. reflexivity. Qed.

(** C7. After a transform, inverse_transform gives back every category of a
    fitted variable that has a statistic in the forward mapping, provided no
    two categories of that mapping share a statistic.  On any frame with the
    columns recorded at fit it returns a frame, whatever the values are: a
    cell without a key in the reverse mapping passes through unchanged; only
    a frame with other columns is an error. *)
Theorem inverse_transform_round_trip self fs X Y :
  fitted_state self = Some fs →
  transform self X = inr Y →
  (∃ Z, inverse_transform self Y = inr Z
        ∧ ∀ v m s i c q,
            v ∈ fitted_variables fs → fitted_dict fs !! v = Some m →
            injective_mapping m →
            column X v = Some s → values s !! i = Some (Some c) →
            assoc c (items m) = Some (Some q) →
            ∃ t, column Z v = Some t ∧ values t !! i = Some (Some c))
  ∧ (∀ W, columns W = fitted_names fs →
       ∃ Z, inverse_transform self W = inr Z
            ∧ ∀ v m s i x,
                v ∈ fitted_variables fs → fitted_dict fs !! v = Some m →
                column W v = Some s → values s !! i = Some x →
                no_reverse_key m x →
                ∃ t, column Z v = Some t ∧ values t !! i = Some x)
  ∧ (∀ W, columns W ≠ fitted_names fs →
       inverse_transform self W = inl SchemaError).
Proof.
  intros Hfs Ht. split; [| split].
  - unfold transform in Ht. rewrite Hfs in Ht.
    case_bool_decide as HX; [| done]. destruct (_ && _); [done |].
    injection Ht as <-. eexists. split.
    + unfold inverse_transform. rewrite Hfs.
      by rewrite bool_decide_eq_true_2 by (by rewrite columns_map_fitted).
    + intros v m s i c q Hv Hm Hinj Hs Hi Hc.
      exists (decode_column m (encode_column m s)). split.
      * eapply column_map_fitted; [done.. |]. by eapply column_map_fitted.
      * unfold decode_column, encode_column. rewrite !values_plain.
        rewrite !list_lookup_fmap, Hi. simpl. f_equal.
        by eapply decode_encode_cell.
  - intros W HW. eexists. split.
    + unfold inverse_transform. by rewrite Hfs, bool_decide_eq_true_2.
    + intros v m s i x Hv Hm Hs Hi Hx. exists (decode_column m s). split.
      * by eapply column_map_fitted.
      * unfold decode_column. rewrite values_plain, list_lookup_fmap, Hi.
        simpl. f_equal. by apply decode_cell_pass.
  - intros W HW. unfold inverse_transform.
    by rewrite Hfs, bool_decide_eq_false_2.
Qed.

(** ** The colour scenario *)

(** C6. Ten rows of [colour], three blue, two red and five green: fit learns
    the counts 5, 3 and 2, or the frequencies 0.5, 0.3 and 0.2 (the floats
    nearest to 5/10, 3/10 and 2/10), in the order of [value_counts];
    [blue, yellow] then becomes [3, NaN] or [0.3, NaN] under ['ignore'], fails
    under ['raise'], and becomes [3, 0] or [0.3, 0] under ['encode']. *)
Theorem colour_scenario check_X select :
  check_X colours = inr colours →
  select colours None false = inr ["colour"] →
  (∀ policy, policy ∈ ["ignore"; "raise"; "encode"] →
     (fit_new check_X select colours "count" policy).2
     = inr (fit_new check_X select colours "count" policy).1
     ∧ learned_items "colour" (fit_new check_X select colours "count" policy).1
       = Some [(Str "green", Some 5%Q); (Str "blue", Some 3%Q);
               (Str "red", Some 2%Q)]
     ∧ (fit_new check_X select colours "frequency" policy).2
       = inr (fit_new check_X select colours "frequency" policy).1
     ∧ learned_items "colour"
         (fit_new check_X select colours "frequency" policy).1
       = Some [(Str "green", Some (float64 (5 # 10)));
               (Str "blue", Some (float64 (3 # 10)));
               (Str "red", Some (float64 (2 # 10)))])
  ∧ transform (fit_new check_X select colours "count" "ignore").1 blue_yellow
    = inr (colour_column [Some (Num 3); None])
  ∧ transform (fit_new check_X select colours "frequency" "ignore").1
      blue_yellow
    = inr (colour_column [Some (Num (float64 (3 # 10))); None])
  ∧ transform (fit_new check_X select colours "count" "raise").1 blue_yellow
    = inl (UnseenCategoryError ["colour"])
  ∧ transform (fit_new check_X select colours "frequency" "raise").1
      blue_yellow
    = inl (UnseenCategoryError ["colour"])
  ∧ transform (fit_new check_X select colours "count" "encode").1 blue_yellow
    = inr (colour_column [Some (Num 3); Some (Num 0)])
  ∧ transform (fit_new check_X select colours "frequency" "encode").1
      blue_yellow
    = inr (colour_column [Some (Num (float64 (3 # 10))); Some (Num 0)]).
Proof.
  intros HX Hsel.
  assert (∀ method policy,
    fit_new check_X select colours method policy
    = fit_new accept explicit_or_all colours method policy) as Hf.
  { intros method policy. unfold fit_new. rewrite !fit_eq. unfold fit_reading.
    cbn [variables ignore_format new_encoder set_config
         configured].
    by rewrite HX, Hsel. }
  split.
  - intros policy Hp. rewrite !Hf.
    apply elem_of_cons in Hp as [->|Hp]; [by vm_compute |].
    apply elem_of_cons in Hp as [->|Hp]; [by vm_compute |].
    apply list_elem_of_singleton in Hp as ->. by vm_compute.
  - rewrite !Hf. by vm_compute.
Qed.

(** * Instances *)

Lemma fit_count_statistics_colours :
  encoding_method (new_encoder "count" "ignore") = "count"
  ∧ fit accept explicit_or_all colours (new_encoder "count" "ignore")
    = (fitted_on colours "count" "ignore",
       inr (fitted_on colours "count" "ignore"))
  ∧ accept colours = inr colours
  ∧ variables_ (fitted_on colours "count" "ignore") = Some ["colour"]
  ∧ "colour" ∈ ["colour"]
  ∧ column colours "colour" = Some colour
  ∧ ∃ d m, encoder_dict_ (fitted_on colours "count" "ignore") = Some d
           ∧ d !! "colour" = Some m ∧ counts_learned colour m.
Proof.
  assert ("colour" ∈ ["colour"]) as Hv by apply list_elem_of_here.
  split; [reflexivity |]. split; [vm_compute; reflexivity |].
  split; [reflexivity |]. split; [vm_compute; reflexivity |].
  split; [exact Hv |]. split; [reflexivity |].
  apply (fit_count_statistics accept explicit_or_all colours colours
           (new_encoder "count" "ignore")
           (fitted_on colours "count" "ignore")
           (fitted_on colours "count" "ignore") ["colour"] "colour" colour);
    [reflexivity | vm_compute; reflexivity | reflexivity
    | vm_compute; reflexivity | exact Hv | reflexivity].
Defined.

Lemma fit_frequency_statistics_colours :
  encoding_method (new_encoder "frequency" "raise") = "frequency"
  ∧ fit accept explicit_or_all colours (new_encoder "frequency" "raise")
    = (fitted_on colours "frequency" "raise",
       inr (fitted_on colours "frequency" "raise"))
  ∧ accept colours = inr colours
  ∧ variables_ (fitted_on colours "frequency" "raise") = Some ["colour"]
  ∧ "colour" ∈ ["colour"]
  ∧ column colours "colour" = Some colour
  ∧ 0 < length (dropna (values colour))
  ∧ ∃ d m, encoder_dict_ (fitted_on colours "frequency" "raise") = Some d
           ∧ d !! "colour" = Some m ∧ frequencies_learned colour m.
Proof.
  assert ("colour" ∈ ["colour"]) as Hv by apply list_elem_of_here.
  assert (0 < length (dropna (values colour))) as Hpos by (vm_compute; lia).
  split; [reflexivity |]. split; [vm_compute; reflexivity |].
  split; [reflexivity |]. split; [vm_compute; reflexivity |].
  split; [exact Hv |]. split; [reflexivity |]. split; [exact Hpos |].
  apply (fit_frequency_statistics accept explicit_or_all colours colours
           (new_encoder "frequency" "raise")
           (fitted_on colours "frequency" "raise")
           (fitted_on colours "frequency" "raise") ["colour"] "colour" colour);
    [reflexivity | vm_compute; reflexivity | reflexivity
    | vm_compute; reflexivity | exact Hv | reflexivity | exact Hpos].
Defined.

Lemma fit_default_valued_maps_colours :
  fit accept explicit_or_all colours (new_encoder "count" "encode")
  = (fitted_on colours "count" "encode",
     inr (fitted_on colours "count" "encode"))
  ∧ ∃ d, encoder_dict_ (fitted_on colours "count" "encode") = Some d
      ∧ ∀ v m, d !! v = Some m →
          (errors (new_encoder "count" "encode") = "encode" →
             default_factory m = Some (Some 0%Q)
             ∧ ∀ k, k ∉ keys m → (getitem m k).2 = inr (Some 0%Q))
          ∧ (errors (new_encoder "count" "encode") ≠ "encode" →
             default_factory m = None
             ∧ ∀ k, k ∉ keys m → getitem m k = (m, inl (KeyError k))).
Proof.
  split; [vm_compute; reflexivity |].
  apply (fit_default_valued_maps accept explicit_or_all colours
           (new_encoder "count" "encode")
           (fitted_on colours "count" "encode")
           (fitted_on colours "count" "encode")).
  vm_compute; reflexivity.
Defined.


Lemma fit_consistency_check_sizes :
  accept sizes = inr sizes
  ∧ explicit_or_all sizes (variables (new_encoder "count" "encode"))
      (ignore_format (new_encoder "count" "encode")) = inr ["size"]
  ∧ (∀ v, v ∈ ["size"] → is_Some (column sizes v))
  ∧ ∃ self' d,
      (fit accept explicit_or_all sizes (new_encoder "count" "encode")).1
      = self'
      ∧ learned (encoding_method (new_encoder "count" "encode"))
          (dct_init_of (errors (new_encoder "count" "encode")))
          sizes ["size"] ∅
        = (d, inr tt)
      ∧ encoder_dict_ self' = Some d
      ∧ variables_ self' = Some ["size"]
      ∧ feature_names_in_ self' = Some (columns sizes)
      ∧ n_features_in_ self' = Some (length (columns sizes))
      ∧ (errors (new_encoder "count" "encode") = "encode" →
         zero_statistic d →
         (fit accept explicit_or_all sizes (new_encoder "count" "encode")).2
         = inl ConsistencyError)
      ∧ (errors (new_encoder "count" "encode") = "encode" →
         ¬ zero_statistic d →
         (fit accept explicit_or_all sizes (new_encoder "count" "encode")).2
         = inr self')
      ∧ (errors (new_encoder "count" "encode") ≠ "encode" →
         (fit accept explicit_or_all sizes (new_encoder "count" "encode")).2
         = inr self'
         ∧ _check_encoding_dictionary self' = (self', inr tt)).
Proof.
  assert (∀ v, v ∈ ["size"] → is_Some (column sizes v)) as Hcols.
  { intros v Hv. apply list_elem_of_singleton in Hv as ->. by eexists. }
  split; [reflexivity |]. split; [reflexivity |]. split; [exact Hcols |].
  apply (fit_consistency_check accept explicit_or_all sizes sizes ["size"]
           (new_encoder "count" "encode"));
    [reflexivity | reflexivity | exact Hcols].
Defined.

(** C4, as stated, fails on [sizes]: the category M is declared and never
    observed, so its count is 0; under ['encode'] fit raises ConsistencyError,
    and the encoder, which had no Fitted State, has one after the call. *)
Lemma failed_check_keeps_fitted_state :
  learned_items "size" (fitted_on sizes "count" "encode")
  = Some [(Str "S", Some 2%Q); (Str "M", Some 0%Q)]
  ∧ (fit accept explicit_or_all sizes (new_encoder "count" "encode")).2
    = inl ConsistencyError
  ∧ fitted_state (new_encoder "count" "encode") = None
  ∧ fitted_state
      (fit accept explicit_or_all sizes (new_encoder "count" "encode")).1
    ≠ None.
Proof. by vm_compute. Qed.



Lemma init_rejects_invalid_mean :
  (("mean" ∉ ["count"; "frequency"])
   ∨ ("ignore" ∉ ["ignore"; "raise"; "encode"]))
  ∧ ∃ msg,
      __init__ accept_init "mean" None false "ignore" = inl (ConfigError msg).
Proof.
  assert (("mean" ∉ ["count"; "frequency"])
          ∨ ("ignore" ∉ ["ignore"; "raise"; "encode"])) as Hbad.
  { left. apply (bool_decide_unpack _). by vm_compute. }
  split; [exact Hbad |].
  apply (init_rejects_invalid accept_init "mean" None false "ignore" Hbad).
Defined.

Lemma transform_raise_unseen_yellow :
  fitted_state (fitted_on colours "count" "raise")
  = Some (colours_state (colour_counts None))
  ∧ errors (fitted_on colours "count" "raise") = "raise"
  ∧ columns blue_yellow = fitted_names (colours_state (colour_counts None))
  ∧ "colour" ∈ fitted_variables (colours_state (colour_counts None))
  ∧ fitted_dict (colours_state (colour_counts None)) !! "colour"
    = Some (colour_counts None)
  ∧ column blue_yellow "colour" = Some (labels ["blue"; "yellow"])
  ∧ Some (Str "yellow") ∈ values (labels ["blue"; "yellow"])
  ∧ (Str "yellow" ∉ keys (colour_counts None))
  ∧ (∃ vs, transform (fitted_on colours "count" "raise") blue_yellow
           = inl (UnseenCategoryError vs)
           ∧ "colour" ∈ vs
           ∧ ∀ u, u ∈ vs ↔
                  u ∈ fitted_variables (colours_state (colour_counts None))
                  ∧ has_unseen (colours_state (colour_counts None))
                      blue_yellow u = true)
  ∧ (∀ X2, columns X2 = fitted_names (colours_state (colour_counts None)) →
           (∀ u, u ∈ fitted_variables (colours_state (colour_counts None)) →
                 has_unseen (colours_state (colour_counts None)) X2 u = false) →
           transform (fitted_on colours "count" "raise") X2
           = inr (map_fitted encode_column
                    (colours_state (colour_counts None)) X2))
  ∧ (∀ policy, policy ≠ "raise" →
       transform
         (set_config (encoding_method (fitted_on colours "count" "raise"))
            policy (fitted_on colours "count" "raise")) blue_yellow
       = inr (map_fitted encode_column
                (colours_state (colour_counts None)) blue_yellow)).
Proof.
  assert (Str "yellow" ∉ keys (colour_counts None)) as Hk.
  { apply (bool_decide_unpack _). by vm_compute. }
  assert (Some (Str "yellow") ∈ values (labels ["blue"; "yellow"])) as Hc.
  { apply (bool_decide_unpack _). by vm_compute. }
  assert ("colour" ∈ fitted_variables (colours_state (colour_counts None)))
    as Hv by apply list_elem_of_here.
  split; [by vm_compute |]. split; [reflexivity |]. split; [reflexivity |].
  split; [exact Hv |]. split; [reflexivity |]. split; [reflexivity |].
  split; [exact Hc |]. split; [exact Hk |].
  apply (transform_raise_unseen (fitted_on colours "count" "raise")
           (colours_state (colour_counts None)) blue_yellow "colour"
           (colour_counts None) (labels ["blue"; "yellow"]) (Str "yellow"));
    [by vm_compute | reflexivity | reflexivity | exact Hv | reflexivity
    | reflexivity | exact Hc | exact Hk].
Defined.

Lemma inverse_transform_round_trip_colours :
  fitted_state (fitted_on colours "count" "ignore")
  = Some (colours_state (colour_counts None))
  ∧ transform (fitted_on colours "count" "ignore") blue_yellow
    = inr (colour_column [Some (Num 3); None])
  ∧ (∃ Z, inverse_transform (fitted_on colours "count" "ignore")
            (colour_column [Some (Num 3); None]) = inr Z
          ∧ ∀ v m s i c q,
              v ∈ fitted_variables (colours_state (colour_counts None)) →
              fitted_dict (colours_state (colour_counts None)) !! v = Some m →
              injective_mapping m →
              column blue_yellow v = Some s →
              values s !! i = Some (Some c) →
              assoc c (items m) = Some (Some q) →
              ∃ t, column Z v = Some t ∧ values t !! i = Some (Some c))
  ∧ (∀ W, columns W = fitted_names (colours_state (colour_counts None)) →
       ∃ Z, inverse_transform (fitted_on colours "count" "ignore") W = inr Z
            ∧ ∀ v m s i x,
                v ∈ fitted_variables (colours_state (colour_counts None)) →
                fitted_dict (colours_state (colour_counts None)) !! v
                = Some m →
                column W v = Some s → values s !! i = Some x →
                no_reverse_key m x →
                ∃ t, column Z v = Some t ∧ values t !! i = Some x)
  ∧ (∀ W, columns W ≠ fitted_names (colours_state (colour_counts None)) →
       inverse_transform (fitted_on colours "count" "ignore") W
       = inl SchemaError).
Proof.
  split; [by vm_compute |]. split; [by vm_compute |].
  apply (inverse_transform_round_trip (fitted_on colours "count" "ignore")
           (colours_state (colour_counts None)) blue_yellow
           (colour_column [Some (Num 3); None]));
    by vm_compute.
Defined.

Lemma colour_scenario_accepting :
  accept colours = inr colours
  ∧ explicit_or_all colours None false = inr ["colour"]
  ∧ (∀ policy, policy ∈ ["ignore"; "raise"; "encode"] →
       (fit_new accept explicit_or_all colours "count" policy).2
       = inr (fit_new accept explicit_or_all colours "count" policy).1
       ∧ learned_items "colour"
           (fit_new accept explicit_or_all colours "count" policy).1
         = Some [(Str "green", Some 5%Q); (Str "blue", Some 3%Q);
                 (Str "red", Some 2%Q)]
       ∧ (fit_new accept explicit_or_all colours "frequency" policy).2
         = inr (fit_new accept explicit_or_all colours "frequency" policy).1
       ∧ learned_items "colour"
           (fit_new accept explicit_or_all colours "frequency" policy).1
         = Some [(Str "green", Some (float64 (5 # 10)));
               (Str "blue", Some (float64 (3 # 10)));
                 (Str "red", Some (float64 (2 # 10)))])
  ∧ transform (fit_new accept explicit_or_all colours "count" "ignore").1
      blue_yellow
    = inr (colour_column [Some (Num 3); None])
  ∧ transform (fit_new accept explicit_or_all colours "frequency" "ignore").1
      blue_yellow
    = inr (colour_column [Some (Num (float64 (3 # 10))); None])
  ∧ transform (fit_new accept explicit_or_all colours "count" "raise").1
      blue_yellow
    = inl (UnseenCategoryError ["colour"])
  ∧ transform (fit_new accept explicit_or_all colours "frequency" "raise").1
      blue_yellow
    = inl (UnseenCategoryError ["colour"])
  ∧ transform (fit_new accept explicit_or_all colours "count" "encode").1
      blue_yellow
    = inr (colour_column [Some (Num 3); Some (Num 0)])
  ∧ transform (fit_new accept explicit_or_all colours "frequency" "encode").1
      blue_yellow
    = inr (colour_column [Some (Num (float64 (3 # 10))); Some (Num 0)]).
Proof.
  split; [reflexivity |]. split; [reflexivity |].
  apply (colour_scenario accept explicit_or_all); reflexivity.
Defined.

(** ** Further examples *)

Example init_defaults :
  __init__ accept_init "count" None false "ignore"
  = inr (new_encoder "count" "ignore").
Proof. reflexivity. Qed.

(** A miss on the defaultdict returns 0 and stores the key; a miss on the
    dict raises. *)
Example defaultdict_miss :
  getitem (colour_counts (Some (Some 0%Q))) (Str "yellow")
  = ({| items := [(Str "green", Some 5%Q); (Str "blue", Some 3%Q);
                  (Str "red", Some 2%Q); (Str "yellow", Some 0%Q)];
        default_factory := Some (Some 0%Q) |},
     inr (Some 0%Q)).
Proof. reflexivity. Qed.

Example dict_miss :
  getitem (colour_counts None) (Str "yellow")
  = (colour_counts None, inl (KeyError (Str "yellow"))).
Proof. reflexivity. Qed.

(** The frequencies of [colours] are pairwise different, and the training
    frame comes back from a round trip. *)
Example round_trip_colours :
  match transform (fitted_on colours "frequency" "ignore") colours with
  | inr Y => inverse_transform (fitted_on colours "frequency" "ignore") Y
  | inl e => inl e
  end = inr colours.
Proof. by vm_compute. Qed.

(** Two categories that share a statistic are not told apart on the way
    back: the first one in the mapping is taken. *)
Example round_trip_tie :
  match transform (fitted_on letters "count" "ignore") letters with
  | inr Y => inverse_transform (fitted_on letters "count" "ignore") Y
  | inl e => inl e
  end = inr [("letter", labels ["a"; "a"])].
Proof. by vm_compute. Qed.

(** * Further properties of fit *)

Lemma learned_no_method method dct X vars d :
  normalized method = None → learned method dct X vars d = (d, inr tt).
Proof.
  intros Hn. induction vars as [|var vars IH]; simpl; [done |].
  by rewrite Hn.
Qed.

Lemma same_configuration_fitted a b vars names n d :
  same_configuration a b →
  set_encoder_dict_ d (set_feature_names_in_ names n (set_variables_ vars a))
  = set_encoder_dict_ d (set_feature_names_in_ names n (set_variables_ vars b)).
Proof.
  intros (Hm & He & Hv & Hi). destruct a, b; simpl in *. by subst.
Qed.

(** *** More on float64 *)

Lemma round_half_even_ge a b K :
  (0 < b)%Z → (K * b <= a)%Z → (K <= round_half_even a b)%Z.
Proof.
  intros Hb Ha. unfold round_half_even.
  pose proof (Zdiv_le_lower_bound a b K Hb Ha).
  destruct (_ <? _)%Z; [done |]. destruct (_ <? _)%Z; [lia |].
  destruct (Z.even _); lia.
Qed.

Lemma round_half_even_exact b K :
  (0 < b)%Z → round_half_even (K * b) b = K.
Proof.
  intros Hb. unfold round_half_even.
  rewrite Z.div_mul, Z.mod_mul by lia.
  by destruct (Z.ltb_spec (2 * 0) b); [| lia].
Qed.

(** The float64 nearest to a positive rational is positive. *)
Lemma float64_pos_positive n d : (0 < n)%Z → (0 < float64_pos n d)%Q.
Proof.
  intros Hn. unfold float64_pos.
  pose proof (scale_of_lower n d Hn) as Hlow.
  destruct (scaled_pos n d (scale_of n d) Hn) as [Hnum Hden].
  pose proof (round_half_even_ge (scaled n d (scale_of n d)).1 _ (2 ^ 52)
                Hden ltac:(lia)) as Hm.
  set (m := round_half_even _ _) in *.
  set (s := scale_of n d) in *.
  assert (0 < 2 ^ Z.max s 0)%Z as HS by (apply Z.pow_pos_nonneg; lia).
  assert (0 < 2 ^ Z.max (- s) 0)%Z as HP by (apply Z.pow_pos_nonneg; lia).
  rewrite Qred_correct. unfold Qlt. cbn [Qnum Qden].
  assert (0 < 2 ^ 52)%Z by done. nia.
Qed.

Lemma float64_positive x : (0 < x)%Q → (0 < float64 x)%Q.
Proof.
  destruct x as [[|n|n] d]; unfold float64; cbn [Qnum Qden]; intros Hx.
  - by vm_compute in Hx.
  - by apply float64_pos_positive.
  - by vm_compute in Hx.
Qed.

(** A positive rational over itself is the float 1. *)
Lemma float64_pos_self d : float64_pos (Z.pos d) d = 1%Q.
Proof.
  unfold float64_pos.
  pose proof (scale_of_nonneg (Z.pos d) d ltac:(lia)) as Hs.
  set (s := scale_of (Z.pos d) d) in *. unfold scaled. cbn [fst snd].
  rewrite (Z.max_r (- s) 0), (Z.max_l s 0) by lia.
  rewrite Z.pow_0_r, !Z.mul_1_r.
  assert (0 < 2 ^ s)%Z as HS by (apply Z.pow_pos_nonneg; lia).
  rewrite (Z.mul_comm (Z.pos d)), round_half_even_exact by lia.
  transitivity (Qred 1); [| reflexivity]. apply Qred_complete.
  unfold Qeq. cbn [Qnum Qden]. rewrite Z2Pos.id by done. lia.
Qed.

Lemma float64_quotient_self n : float64 (quotient (S n) (S n)) = 1%Q.
Proof.
  unfold quotient, float64. cbn [Qnum Qden].
  replace (Pos.of_nat (S n)) with (Pos.of_succ_nat n)
    by apply Pos.of_nat_succ.
  cbn [Z.of_nat]. apply float64_pos_self.
Qed.

(** *** More on association lists and value_counts *)

Lemma assoc_app_miss {K V} `{EqDecision K} (k k' : K) (v : V) l :
  assoc k l = None →
  assoc k (l ++ [(k', v)]) = if decide (k' = k) then Some v else None.
Proof.
  induction l as [|[k0 v0] l IH]; simpl; [done |].
  destruct (decide (k0 = k)); [done | apply IH].
Qed.

Lemma assoc_app_hit {K V} `{EqDecision K} (k : K) (v : V) l l' :
  assoc k l = Some v → assoc k (l ++ l') = Some v.
Proof.
  induction l as [|[k0 v0] l IH]; simpl; [done |].
  destruct (decide (k0 = k)); [done | apply IH].
Qed.

(** A miss on a defaultdict returns the default and appends the key. *)
Lemma getitem_miss_default m k d :
  assoc k (items m) = None → default_factory m = Some d →
  getitem m k
  = ({| items := items m ++ [(k, d)]; default_factory := Some d |}, inr d).
Proof. intros Hk Hd. unfold getitem. by rewrite Hk, Hd. Qed.

(** Two association lists without duplicate keys that hold the same pairs
    answer every lookup alike. *)
Lemma assoc_ext {K V} `{EqDecision K} (l1 l2 : list (K * V)) :
  NoDup l1.*1 → NoDup l2.*1 →
  (∀ kv, kv ∈ l1 ↔ kv ∈ l2) →
  ∀ k, assoc k l1 = assoc k l2.
Proof.
  intros Hnd1 Hnd2 Hsame k.
  destruct (assoc k l1) as [v|] eqn:H1.
  - apply assoc_elem_of, Hsame in H1. symmetry. by apply assoc_NoDup.
  - destruct (assoc k l2) as [v|] eqn:H2; [| done].
    apply assoc_elem_of, Hsame in H2. apply assoc_None in H1.
    exfalso. apply H1. apply list_elem_of_fmap. by exists (k, v).
Qed.

Lemma elem_of_value_counts n k v s :
  (k, v) ∈ value_counts n s ↔
  k ∈ index_of s
  ∧ v = (if n then divide (count_of k (dropna (values s)))
                     (length (dropna (values s)))
         else Some (inject_Z (Z.of_nat (count_of k (dropna (values s)))))).
Proof.
  destruct n; [apply elem_of_value_counts_freq
              | apply elem_of_value_counts_count].
Qed.

Lemma values_Permutation s1 s2 :
  dtype s1 = dtype s2 → data s1 ≡ₚ data s2 → values s1 ≡ₚ values s2.
Proof.
  unfold values. intros <- Hdata. destruct (dtype s1); by rewrite Hdata.
Qed.

Lemma count_of_Permutation k l1 l2 :
  l1 ≡ₚ l2 → count_of k l1 = count_of k l2.
Proof. unfold count_of. by intros ->. Qed.

Lemma index_of_plain s k :
  dtype s = plain → k ∈ index_of s ↔ k ∈ dropna (values s).
Proof. unfold index_of. intros ->. apply elem_of_unique. Qed.

Lemma index_of_category s cats k :
  dtype s = category cats → k ∈ index_of s ↔ k ∈ cats.
Proof. unfold index_of. intros ->. apply elem_of_unique. Qed.

(** The value counts of a column do not depend on the order of its rows. *)
Lemma value_counts_Permutation n s1 s2 :
  dtype s1 = dtype s2 → data s1 ≡ₚ data s2 →
  value_counts n s1 ≡ₚ value_counts n s2.
Proof.
  intros Hdt Hdata.
  assert (dropna (values s1) ≡ₚ dropna (values s2)) as Hperm.
  { unfold dropna. by rewrite (values_Permutation s1 s2). }
  apply NoDup_Permutation.
  - apply (NoDup_fmap_1 fst), NoDup_value_counts.
  - apply (NoDup_fmap_1 fst), NoDup_value_counts.
  - intros [k v]. rewrite !elem_of_value_counts.
    rewrite (count_of_Permutation k _ _ Hperm), Hperm.
    assert (k ∈ index_of s1 ↔ k ∈ index_of s2) as ->; [| done].
    unfold index_of. rewrite <- Hdt.
    destruct (dtype s1); [| done]. by rewrite !elem_of_unique, Hperm.
Qed.

Section FitFurther.
Context (check_X : DataFrame → exn + DataFrame)
        (select : DataFrame → option (list string) → bool
                  → exn + list string).

(** A stored mapping is the value counts of the column, under one of the two
    encoding methods. *)
Lemma fit_learned_inv X self v col m :
  fit_learned check_X select X self v col m →
  ∃ n, normalized (encoding_method self) = Some n
       ∧ m = to_dict (value_counts n col) (dct_init_of (errors self)).
Proof.
  intros (X' & self' & r & vars & d & Hfit & HX & Hvars & Hv & Hcol & Hd & Hm).
  destruct (normalized (encoding_method self)) as [n|] eqn:Hn.
  - exists n. split; [done |].
    destruct (fit_stores_value_counts check_X select n X X' self self' r
                vars v col Hn Hfit HX Hvars Hv Hcol) as (d' & Hd' & Hm').
    rewrite Hd in Hd'. injection Hd' as <-. rewrite Hm in Hm'.
    by injection Hm'.
  - apply fit_inv in Hfit as (X'' & vars' & d' & _ & _ & Hl & -> & _).
    rewrite learned_no_method in Hl by done. injection Hl as <-.
    cbn [encoder_dict_ set_encoder_dict_] in Hd. injection Hd as <-.
    by rewrite lookup_empty in Hm.
Qed.

(** X1. Whatever its outcome, fit leaves the configuration of the encoder as
    it was: it assigns only the attributes of the Fitted State. *)
Theorem fit_keeps_configuration X self :
  same_configuration (fit check_X select X self).1 self.
Proof.
  rewrite fit_eq. unfold fit_reading, same_configuration.
  destruct (check_X X) as [e|X']; [done |].
  destruct (select X' _ _) as [e|vars]; [done |]. cbv zeta.
  destruct (learned _ _ _ _ _).2; [done |]. by destruct (_ && _).
Qed.

(** X2. After a successful fit under ['count'] or ['frequency'],
    [encoder_dict_] has an entry for exactly the fitted variables, whatever
    it held before the call. *)
Theorem fit_dict_domain X self self' r n :
  normalized (encoding_method self) = Some n →
  fit check_X select X self = (self', inr r) →
  ∃ vars d, variables_ self' = Some vars
            ∧ encoder_dict_ self' = Some d
            ∧ ∀ v, is_Some (d !! v) ↔ v ∈ vars.
Proof.
  intros Hn Hfit.
  apply fit_inv in Hfit as (X' & vars & d & _ & _ & Hl & -> & _).
  exists vars, d. split; [done |]. split; [done |]. intros v. split.
  - intros Hv. destruct (decide (v ∈ vars)) as [|Hout]; [done |].
    pose proof (learned_lookup_notin (encoding_method self)
      (dct_init_of (errors self)) X' vars ∅ v Hout) as Hnot.
    rewrite Hl, lookup_empty in Hnot. simpl in Hnot.
    rewrite Hnot in Hv. by destruct Hv.
  - intros Hv.
    destruct (learned_lookup _ _ X' n vars ∅ d v Hn Hl Hv) as (col & _ & Hd).
    by eexists.
Qed.

(** X3. A successful fit does not depend on an earlier fit: two encoders with
    the same configuration are the same object after fitting the same frame,
    whatever Fitted State either had. *)
Theorem fit_forgets_earlier_fit X self other self' r :
  same_configuration self other →
  fit check_X select X self = (self', inr r) →
  fit check_X select X other = (self', inr r).
Proof.
  intros Hsame. pose proof Hsame as (Hm & He & Hv & Hi).
  rewrite !fit_eq. unfold fit_reading.
  destruct (check_X X) as [e|X']; [done |]. rewrite <- Hv, <- Hi.
  destruct (select X' _ _) as [e|vars]; [done |]. cbv zeta.
  rewrite <- Hm, <- He.
  rewrite (same_configuration_fitted self other vars _ _ _ Hsame).
  done.
Qed.

(** X4. With an [encoding_method] that is neither ['count'] nor
    ['frequency'] (the attribute can be assigned after construction), the
    loop of fit matches no branch: [encoder_dict_] is left empty, and no
    KeyError is raised even when a selected variable is not a column. *)
Theorem fit_unknown_method X X' vars self :
  normalized (encoding_method self) = None →
  check_X X = inr X' →
  select X' (variables self) (ignore_format self) = inr vars →
  encoder_dict_ (fit check_X select X self).1 = Some ∅
  ∧ variables_ (fit check_X select X self).1 = Some vars
  ∧ ∀ k, (fit check_X select X self).2 ≠ inl (KeyError k).
Proof.
  intros Hn HX Hsel. rewrite fit_eq. unfold fit_reading.
  rewrite HX, Hsel, learned_no_method by done. cbv zeta. cbn [fst snd].
  by destruct (_ && _).
Qed.

(** X7. The statistics learned for a variable do not depend on the order of
    the training rows: two fits whose columns hold the same cells in any
    order store the same pairs, answer every lookup alike and have the same
    default. *)
Theorem fit_row_order X1 X2 self v col1 col2 m1 m2 :
  fit_learned check_X select X1 self v col1 m1 →
  fit_learned check_X select X2 self v col2 m2 →
  dtype col1 = dtype col2 →
  data col1 ≡ₚ data col2 →
  items m1 ≡ₚ items m2
  ∧ (∀ k, assoc k (items m1) = assoc k (items m2))
  ∧ default_factory m1 = default_factory m2.
Proof.
  intros H1 H2 Hdt Hdata.
  apply fit_learned_inv in H1 as (n1 & Hn1 & ->).
  apply fit_learned_inv in H2 as (n2 & Hn2 & ->).
  rewrite Hn1 in Hn2. injection Hn2 as <-. cbn [items to_dict default_factory].
  pose proof (value_counts_Permutation n1 col1 col2 Hdt Hdata) as Hperm.
  split; [done |]. split; [| done].
  apply assoc_ext; try apply NoDup_value_counts.
  intros kv. by rewrite Hperm.
Qed.

(** X8. For a column that is not categorical, the keys of the learned
    mapping are exactly the categories that some row bears, and every
    statistic is a positive number: a count of at least 1, or a positive
    frequency. *)
Theorem fit_plain_statistics_positive X self v col m :
  fit_learned check_X select X self v col m →
  dtype col = plain →
  (∀ k, k ∈ keys m ↔ k ∈ dropna (values col))
  ∧ ∀ k n, assoc k (items m) = Some n → ∃ q, n = Some q ∧ (0 < q)%Q.
Proof.
  intros Hfit Hplain. apply fit_learned_inv in Hfit as (n & Hn & ->).
  unfold keys. cbn [items to_dict]. split.
  - intros k. by rewrite value_counts_keys, index_of_plain.
  - intros k st Hk. apply assoc_elem_of, elem_of_value_counts in Hk as [Hk ->].
    apply index_of_plain in Hk; [| done]. pose proof Hk as Hpos.
    apply count_of_pos in Hpos.
    pose proof (count_of_le k (dropna (values col))) as Hle.
    destruct n.
    + destruct (length (dropna (values col))) as [|t] eqn:Hlen; [lia |].
      eexists. split; [done |]. apply float64_positive.
      unfold quotient, Qlt. cbn [Qnum Qden]. lia.
    + eexists. split; [done |]. unfold Qlt. cbn [Qnum Qden inject_Z]. lia.
Qed.

(** X9. Under ['count'], the keys learned for a categorical column are its
    declared categories, and a key has the statistic 0 exactly when no row
    bears it. *)
Theorem fit_count_zero_unobserved X self v col m cats :
  fit_learned check_X select X self v col m →
  encoding_method self = "count" →
  dtype col = category cats →
  (∀ k, k ∈ keys m ↔ k ∈ cats)
  ∧ ∀ k q, assoc k (items m) = Some (Some q) →
      ((q == 0)%Q ↔ k ∉ dropna (values col)).
Proof.
  intros Hfit Hm Hcat. apply fit_learned_inv in Hfit as (n & Hn & ->).
  rewrite Hm in Hn. injection Hn as <-.
  unfold keys. cbn [items to_dict]. split.
  - intros k. by rewrite value_counts_keys, (index_of_category _ cats).
  - intros k q Hk.
    apply assoc_elem_of, elem_of_value_counts in Hk as [_ [= ->]].
    rewrite <- count_of_pos. unfold Qeq. cbn [Qnum Qden inject_Z]. lia.
Qed.

(** X10. A mapping stored under ['encode'] is a defaultdict, so looking up
    a category it does not hold returns 0 and stores that category with the
    statistic 0: the Fitted State grows by the key, the next lookup of it is
    a hit, and the other keys are as they were. *)
Theorem encode_miss_stores_key X self v col m k :
  fit_learned check_X select X self v col m →
  errors self = "encode" →
  k ∉ keys m →
  (getitem m k).2 = inr (Some 0%Q)
  ∧ items (getitem m k).1 = items m ++ [(k, Some 0%Q)]
  ∧ default_factory (getitem m k).1 = default_factory m
  ∧ getitem (getitem m k).1 k = ((getitem m k).1, inr (Some 0%Q))
  ∧ ∀ k', k' ≠ k →
      assoc k' (items (getitem m k).1) = assoc k' (items m).
Proof.
  intros Hfit He Hk. apply fit_learned_inv in Hfit as (n & _ & ->).
  apply assoc_None in Hk.
  rewrite He in *. change (dct_init_of "encode") with (defaultdict (Some 0%Q)).
  set (m := to_dict (value_counts n col) (defaultdict (Some 0%Q))) in *.
  rewrite (getitem_miss_default m k (Some 0%Q)) by done.
  cbn [fst snd items default_factory]. do 3 (split; [done |]). split.
  - unfold getitem. cbn [items default_factory].
    by rewrite (assoc_app_miss k k _ _ Hk), decide_True.
  - intros k' Hne.
    destruct (assoc k' (items m)) as [x|] eqn:Hk'.
    + by apply assoc_app_hit.
    + by rewrite (assoc_app_miss k' k _ _ Hk'), decide_False.
Qed.

(** X12. A column that is not categorical and holds one category in all its
    non-missing rows: the learned mapping has that single key, with the
    number of those rows under ['count'] and with exactly 1.0 under
    ['frequency']. *)
Theorem fit_constant_column X self v col m c t :
  fit_learned check_X select X self v col m →
  dtype col = plain →
  dropna (values col) = replicate (S t) c →
  (encoding_method self = "count" →
   items m = [(c, Some (inject_Z (Z.of_nat (S t))))])
  ∧ (encoding_method self = "frequency" → items m = [(c, Some 1%Q)]).
Proof.
  intros Hfit Hplain Hcol. apply fit_learned_inv in Hfit as (n & Hn & ->).
  cbn [items to_dict].
  assert (counts col = [(c, S t)]) as Hcounts.
  { unfold counts, index_of. rewrite Hplain, Hcol.
    assert (unique (replicate (S t) c) = [c]) as ->.
    { clear. induction t as [|t IH]; [done |].
      change (replicate (S (S t)) c) with (c :: replicate (S t) c).
      cbn [unique]. rewrite IH. by rewrite filter_cons_False by naive_solver. }
    cbn [fmap list_fmap]. do 2 f_equal. unfold count_of.
    clear. induction (S t) as [|u IH]; [done |].
    cbn [replicate]. rewrite filter_cons_True by done. simpl. by rewrite IH. }
  unfold value_counts. rewrite Hcounts.
  change (sort_by_count [(c, S t)]) with [(c, S t)].
  split; intros Hm; rewrite Hm in Hn; injection Hn as <-.
  - done.
  - cbn [fmap list_fmap sum_list sum_list_with snd fst id divide].
    rewrite Nat.add_0_r. unfold divide. by rewrite float64_quotient_self.
Qed.

(** X13. The two encoding methods learn the same keys in the same order for
    a column, and the frequency of a key is its count divided, in float64, by
    the number of non-missing rows. *)
Theorem fit_methods_agree X1 X2 self1 self2 v col mc mf :
  fit_learned check_X select X1 self1 v col mc →
  fit_learned check_X select X2 self2 v col mf →
  encoding_method self1 = "count" →
  encoding_method self2 = "frequency" →
  keys mf = keys mc
  ∧ ∀ k c, assoc k (items mc) = Some (Some (inject_Z (Z.of_nat c))) →
      assoc k (items mf) = Some (divide c (length (dropna (values col)))).
Proof.
  intros H1 H2 Hm1 Hm2.
  apply fit_learned_inv in H1 as (n1 & Hn1 & ->).
  apply fit_learned_inv in H2 as (n2 & Hn2 & ->).
  rewrite Hm1 in Hn1. rewrite Hm2 in Hn2.
  injection Hn1 as <-. injection Hn2 as <-.
  unfold keys. cbn [items to_dict]. split.
  - unfold value_counts. by rewrite <- !list_fmap_compose.
  - intros k c Hk.
    apply assoc_elem_of, elem_of_value_counts_count in Hk as [Hk [= Hc]].
    apply Nat2Z.inj in Hc as ->.
    apply assoc_NoDup; [apply NoDup_value_counts |].
    by apply elem_of_value_counts_freq.
Qed.

End FitFurther.

(** * Instances of the further properties *)

Ltac fit_learned_here X self' vars d :=
  exists X, self', self', vars, d;
  split; [by vm_compute |]; split; [reflexivity |];
  split; [by vm_compute |];
  split; [apply (bool_decide_unpack _); by vm_compute |];
  split; [reflexivity |]; split; by vm_compute.

Lemma fit_dict_domain_colours :
  normalized (encoding_method (new_encoder "count" "ignore")) = Some false
  ∧ fit accept explicit_or_all colours (new_encoder "count" "ignore")
    = (fitted_on colours "count" "ignore",
       inr (fitted_on colours "count" "ignore"))
  ∧ ∃ vars d,
      variables_ (fitted_on colours "count" "ignore") = Some vars
      ∧ encoder_dict_ (fitted_on colours "count" "ignore") = Some d
      ∧ ∀ v, is_Some (d !! v) ↔ v ∈ vars.
Proof.
  split; [reflexivity |]. split; [by vm_compute |].
  apply (fit_dict_domain accept explicit_or_all colours
           (new_encoder "count" "ignore")
           (fitted_on colours "count" "ignore")
           (fitted_on colours "count" "ignore") false);
    [reflexivity | by vm_compute].
Defined.

Lemma fit_forgets_earlier_fit_letters :
  same_configuration (new_encoder "count" "ignore")
    (fitted_on letters "count" "ignore")
  ∧ fit accept explicit_or_all colours (new_encoder "count" "ignore")
    = (fitted_on colours "count" "ignore",
       inr (fitted_on colours "count" "ignore"))
  ∧ fit accept explicit_or_all colours (fitted_on letters "count" "ignore")
    = (fitted_on colours "count" "ignore",
       inr (fitted_on colours "count" "ignore")).
Proof.
  assert (same_configuration (new_encoder "count" "ignore")
            (fitted_on letters "count" "ignore")) as Hsame
    by (by vm_compute).
  split; [exact Hsame |]. split; [by vm_compute |].
  apply (fit_forgets_earlier_fit accept explicit_or_all colours
           (new_encoder "count" "ignore")
           (fitted_on letters "count" "ignore")
           (fitted_on colours "count" "ignore")
           (fitted_on colours "count" "ignore") Hsame).
  by vm_compute.
Defined.

Lemma fit_unknown_method_mean :
  normalized (encoding_method (new_encoder "mean" "ignore")) = None
  ∧ accept colours = inr colours
  ∧ explicit_or_all colours (variables (new_encoder "mean" "ignore"))
      (ignore_format (new_encoder "mean" "ignore")) = inr ["colour"]
  ∧ encoder_dict_
      (fit accept explicit_or_all colours (new_encoder "mean" "ignore")).1
    = Some ∅
  ∧ variables_
      (fit accept explicit_or_all colours (new_encoder "mean" "ignore")).1
    = Some ["colour"]
  ∧ ∀ k, (fit accept explicit_or_all colours
            (new_encoder "mean" "ignore")).2 ≠ inl (KeyError k).
Proof.
  split; [reflexivity |]. split; [reflexivity |]. split; [reflexivity |].
  apply (fit_unknown_method accept explicit_or_all colours colours ["colour"]
           (new_encoder "mean" "ignore")); reflexivity.
Defined.

Lemma fit_row_order_letters :
  fit_learned accept explicit_or_all letters (new_encoder "count" "ignore")
    "letter" (labels ["a"; "b"]) (letter_counts "a" "b")
  ∧ fit_learned accept explicit_or_all letters_reversed
      (new_encoder "count" "ignore") "letter" (labels ["b"; "a"])
      (letter_counts "b" "a")
  ∧ dtype (labels ["a"; "b"]) = dtype (labels ["b"; "a"])
  ∧ data (labels ["a"; "b"]) ≡ₚ data (labels ["b"; "a"])
  ∧ items (letter_counts "a" "b") ≡ₚ items (letter_counts "b" "a")
  ∧ (∀ k, assoc k (items (letter_counts "a" "b"))
          = assoc k (items (letter_counts "b" "a")))
  ∧ default_factory (letter_counts "a" "b")
    = default_factory (letter_counts "b" "a").
Proof.
  assert (fit_learned accept explicit_or_all letters
            (new_encoder "count" "ignore") "letter" (labels ["a"; "b"])
            (letter_counts "a" "b")) as H1.
  { fit_learned_here letters (fitted_on letters "count" "ignore") ["letter"]
      ({["letter" := letter_counts "a" "b"]} : gmap string Mapping). }
  assert (fit_learned accept explicit_or_all letters_reversed
            (new_encoder "count" "ignore") "letter" (labels ["b"; "a"])
            (letter_counts "b" "a")) as H2.
  { fit_learned_here letters_reversed
      (fitted_on letters_reversed "count" "ignore") ["letter"]
      ({["letter" := letter_counts "b" "a"]} : gmap string Mapping). }
  assert (data (labels ["a"; "b"]) ≡ₚ data (labels ["b"; "a"])) as Hperm.
  { apply (bool_decide_unpack _). by vm_compute. }
  split; [exact H1 |]. split; [exact H2 |]. split; [reflexivity |].
  split; [exact Hperm |].
  apply (fit_row_order accept explicit_or_all letters letters_reversed
           (new_encoder "count" "ignore") "letter"
           (labels ["a"; "b"]) (labels ["b"; "a"])
           (letter_counts "a" "b") (letter_counts "b" "a")
           H1 H2 eq_refl Hperm).
Defined.

Lemma fit_plain_statistics_positive_colours :
  fit_learned accept explicit_or_all colours
    (new_encoder "frequency" "ignore") "colour" colour
    (colour_frequencies None)
  ∧ dtype colour = plain
  ∧ (∀ k, k ∈ keys (colour_frequencies None) ↔ k ∈ dropna (values colour))
  ∧ ∀ k n, assoc k (items (colour_frequencies None)) = Some n →
      ∃ q, n = Some q ∧ (0 < q)%Q.
Proof.
  assert (fit_learned accept explicit_or_all colours
            (new_encoder "frequency" "ignore") "colour" colour
            (colour_frequencies None)) as H1.
  { fit_learned_here colours (fitted_on colours "frequency" "ignore")
      ["colour"]
      ({["colour" := colour_frequencies None]} : gmap string Mapping). }
  split; [exact H1 |]. split; [reflexivity |].
  apply (fit_plain_statistics_positive accept explicit_or_all colours
           (new_encoder "frequency" "ignore") "colour" colour
           (colour_frequencies None) H1 eq_refl).
Defined.

Lemma fit_count_zero_unobserved_sizes :
  fit_learned accept explicit_or_all sizes (new_encoder "count" "ignore")
    "size" size size_counts
  ∧ encoding_method (new_encoder "count" "ignore") = "count"
  ∧ dtype size = category [Str "S"; Str "M"]
  ∧ (∀ k, k ∈ keys size_counts ↔ k ∈ [Str "S"; Str "M"])
  ∧ ∀ k q, assoc k (items size_counts) = Some (Some q) →
      ((q == 0)%Q ↔ k ∉ dropna (values size)).
Proof.
  assert (fit_learned accept explicit_or_all sizes
            (new_encoder "count" "ignore") "size" size size_counts) as H1.
  { fit_learned_here sizes (fitted_on sizes "count" "ignore") ["size"]
      ({["size" := size_counts]} : gmap string Mapping). }
  split; [exact H1 |]. split; [reflexivity |]. split; [reflexivity |].
  apply (fit_count_zero_unobserved accept explicit_or_all sizes
           (new_encoder "count" "ignore") "size" size size_counts
           [Str "S"; Str "M"] H1 eq_refl eq_refl).
Defined.

Lemma encode_miss_stores_key_yellow :
  fit_learned accept explicit_or_all colours (new_encoder "count" "encode")
    "colour" colour (colour_counts (Some (Some 0%Q)))
  ∧ errors (new_encoder "count" "encode") = "encode"
  ∧ (Str "yellow" ∉ keys (colour_counts (Some (Some 0%Q))))
  ∧ (getitem (colour_counts (Some (Some 0%Q))) (Str "yellow")).2
    = inr (Some 0%Q)
  ∧ items (getitem (colour_counts (Some (Some 0%Q))) (Str "yellow")).1
    = items (colour_counts (Some (Some 0%Q))) ++ [(Str "yellow", Some 0%Q)]
  ∧ default_factory
      (getitem (colour_counts (Some (Some 0%Q))) (Str "yellow")).1
    = default_factory (colour_counts (Some (Some 0%Q)))
  ∧ getitem (getitem (colour_counts (Some (Some 0%Q))) (Str "yellow")).1
      (Str "yellow")
    = ((getitem (colour_counts (Some (Some 0%Q))) (Str "yellow")).1,
       inr (Some 0%Q))
  ∧ ∀ k', k' ≠ Str "yellow" →
      assoc k'
        (items (getitem (colour_counts (Some (Some 0%Q))) (Str "yellow")).1)
      = assoc k' (items (colour_counts (Some (Some 0%Q)))).
Proof.
  assert (fit_learned accept explicit_or_all colours
            (new_encoder "count" "encode") "colour" colour
            (colour_counts (Some (Some 0%Q)))) as H1.
  { fit_learned_here colours (fitted_on colours "count" "encode") ["colour"]
      ({["colour" := colour_counts (Some (Some 0%Q))]} : gmap string Mapping). }
  assert (Str "yellow" ∉ keys (colour_counts (Some (Some 0%Q)))) as Hk.
  { apply (bool_decide_unpack _). by vm_compute. }
  split; [exact H1 |]. split; [reflexivity |]. split; [exact Hk |].
  apply (encode_miss_stores_key accept explicit_or_all colours
           (new_encoder "count" "encode") "colour" colour
           (colour_counts (Some (Some 0%Q))) (Str "yellow") H1 eq_refl Hk).
Defined.

Lemma fit_constant_column_blue :
  fit_learned accept explicit_or_all constants
    (new_encoder "frequency" "ignore") "colour" constant
    {| items := [(Str "blue", Some 1%Q)]; default_factory := None |}
  ∧ dtype constant = plain
  ∧ dropna (values constant) = replicate 3 (Str "blue")
  ∧ (encoding_method (new_encoder "frequency" "ignore") = "count" →
     items {| items := [(Str "blue", Some 1%Q)]; default_factory := None |}
     = [(Str "blue", Some (inject_Z (Z.of_nat 3)))])
  ∧ (encoding_method (new_encoder "frequency" "ignore") = "frequency" →
     items {| items := [(Str "blue", Some 1%Q)]; default_factory := None |}
     = [(Str "blue", Some 1%Q)]).
Proof.
  assert (fit_learned accept explicit_or_all constants
            (new_encoder "frequency" "ignore") "colour" constant
            {| items := [(Str "blue", Some 1%Q)]; default_factory := None |})
    as H1.
  { fit_learned_here constants (fitted_on constants "frequency" "ignore")
      ["colour"]
      ({["colour" := {| items := [(Str "blue", Some 1%Q)];
                        default_factory := None |}]} : gmap string Mapping). }
  split; [exact H1 |]. split; [reflexivity |]. split; [reflexivity |].
  apply (fit_constant_column accept explicit_or_all constants
           (new_encoder "frequency" "ignore") "colour" constant
           {| items := [(Str "blue", Some 1%Q)]; default_factory := None |}
           (Str "blue") 2 H1 eq_refl eq_refl).
Defined.

Lemma fit_methods_agree_colours :
  fit_learned accept explicit_or_all colours (new_encoder "count" "ignore")
    "colour" colour (colour_counts None)
  ∧ fit_learned accept explicit_or_all colours
      (new_encoder "frequency" "ignore") "colour" colour
      (colour_frequencies None)
  ∧ encoding_method (new_encoder "count" "ignore") = "count"
  ∧ encoding_method (new_encoder "frequency" "ignore") = "frequency"
  ∧ keys (colour_frequencies None) = keys (colour_counts None)
  ∧ ∀ k c,
      assoc k (items (colour_counts None))
      = Some (Some (inject_Z (Z.of_nat c))) →
      assoc k (items (colour_frequencies None))
      = Some (divide c (length (dropna (values colour)))).
Proof.
  assert (fit_learned accept explicit_or_all colours
            (new_encoder "count" "ignore") "colour" colour
            (colour_counts None)) as H1.
  { fit_learned_here colours (fitted_on colours "count" "ignore") ["colour"]
      ({["colour" := colour_counts None]} : gmap string Mapping). }
  assert (fit_learned accept explicit_or_all colours
            (new_encoder "frequency" "ignore") "colour" colour
            (colour_frequencies None)) as H2.
  { fit_learned_here colours (fitted_on colours "frequency" "ignore")
      ["colour"]
      ({["colour" := colour_frequencies None]} : gmap string Mapping). }
  split; [exact H1 |]. split; [exact H2 |]. split; [reflexivity |].
  split; [reflexivity |].
  apply (fit_methods_agree accept explicit_or_all colours colours
           (new_encoder "count" "ignore") (new_encoder "frequency" "ignore")
           "colour" colour (colour_counts None) (colour_frequencies None)
           H1 H2 eq_refl eq_refl).
Defined.
